(** * EduBot backend: the request shaper of [backend/main.py]

    A shallow embedding of the helper functions and the two POST handlers
    of the FastAPI service, followed by the properties of the
    specification that concern them.

    Modelling conventions.
    - A Python [str] is a [string]; a character stands for one code point
      below 256.  An f-string with one hole is a concatenation.
    - A Python [int] is a [Z]; a Python [float] is an IEEE 754 value
      ([spec_float]).
    - Objects that the handler shares or updates in place (the request's
      list of messages, the copies it makes) live in a store, see
      [Module Store]; the value-level functions of [Module Backend] work on
      the contents of those objects.
    - Logging is not modelled. *)

From Stdlib Require Import ZArith List String Ascii Bool Lia DecimalString.
From Stdlib Require Import Floats.SpecFloat.
From stdpp Require Import gmap.

Import ListNotations.
Local Open Scope string_scope.

(* String concatenation unfolds on a constructor, as list concatenation
   does. *)
#[local] Arguments String.append !_ _ / : simpl nomatch.

(** ** Python strings *)

Module PyStr.

(** Code points that [str.lower] maps to another code point, among those
    below 256: [A]-[Z] and the capital letters of Latin-1. *)
Definition is_upper (c : ascii) : bool :=
  let n := N_of_ascii c in
  ((65 <=? n) && (n <=? 90) || (192 <=? n) && (n <=? 214)
   || (216 <=? n) && (n <=? 222))%N.

Definition lower_char (c : ascii) : ascii :=
  if is_upper c then ascii_of_N (N_of_ascii c + 32) else c.

(** [s.lower()] *)
Fixpoint lower (s : string) : string :=
  match s with
  | EmptyString => EmptyString
  | String c s' => String (lower_char c) (lower s')
  end.

(** [s.startswith(k)], the test made at each position by [k in s]. *)
Fixpoint startswith (s k : string) {struct k} : bool :=
  match k with
  | EmptyString => true
  | String a k' =>
      match s with
      | EmptyString => false
      | String b s' => Ascii.eqb a b && startswith s' k'
      end
  end.

(** [k in s] on strings: [k] occurs in [s] at some position. *)
Fixpoint contains (k s : string) : bool :=
  startswith s k ||
  match s with
  | EmptyString => false
  | String _ s' => contains k s'
  end.

(** Code points below 256 that [str.strip] removes. *)
Definition is_space (c : ascii) : bool :=
  let n := N_of_ascii c in
  ((9 <=? n) && (n <=? 13) || (28 <=? n) && (n <=? 32)
   || (n =? 133) || (n =? 160))%N.

Fixpoint lstrip (s : string) : string :=
  match s with
  | EmptyString => EmptyString
  | String c s' => if is_space c then lstrip s' else s
  end.

Fixpoint rstrip (s : string) : string :=
  match s with
  | EmptyString => EmptyString
  | String c s' =>
      match rstrip s' with
      | EmptyString => if is_space c then EmptyString else String c EmptyString
      | r => String c r
      end
  end.

(** [s.strip()] *)
Definition strip (s : string) : string := rstrip (lstrip s).

(** Every character is one that [str.strip] removes. *)
Fixpoint all_space (s : string) : bool :=
  match s with
  | EmptyString => true
  | String c s' => is_space c && all_space s'
  end.

(** The first, the last character is one that [str.strip] removes. *)
Definition starts_space (s : string) : bool :=
  match s with
  | EmptyString => false
  | String c _ => is_space c
  end.

Fixpoint ends_space (s : string) : bool :=
  match s with
  | EmptyString => false
  | String c EmptyString => is_space c
  | String _ s' => ends_space s'
  end.

(** What the specification calls "contains": an occurrence, written out. *)
Definition occurs_in (k s : string) : Prop :=
  exists pre post, s = pre ++ k ++ post.

End PyStr.

(** ** Python lists: negative indices, slices, item assignment *)

Module PyList.

Section Ops.
Context {A : Type}.

(** Position designated by index [i] in [l], counting from the end when
    [i] is negative; [None] when it is out of range. *)
Definition norm_index (l : list A) (i : Z) : option nat :=
  let n := Z.of_nat (length l) in
  let j := if (i <? 0)%Z then (i + n)%Z else i in
  if ((0 <=? j) && (j <? n))%Z then Some (Z.to_nat j) else None.

(** [l[i]]; [None] stands for [IndexError]. *)
Definition getitem (l : list A) (i : Z) : option A :=
  match norm_index l i with
  | Some j => nth_error l j
  | None => None
  end.

(** [l[i] = x], as the list after the assignment; [None] stands for
    [IndexError]. *)
Definition setitem (l : list A) (i : Z) (x : A) : option (list A) :=
  match norm_index l i with
  | Some j => Some (firstn j l ++ x :: skipn (S j) l)%list
  | None => None
  end.

(** [l[i:]]: a start before the beginning or past the end is clamped. *)
Definition slice_from (l : list A) (i : Z) : list A :=
  let n := Z.of_nat (length l) in
  let start := if (i <? 0)%Z then Z.max 0 (i + n) else Z.min i n in
  skipn (Z.to_nat start) l.

(** The last [n] elements of [l], in the order they have in [l]: the
    window in the words of the specification. *)
Definition last_n (n : nat) (l : list A) : list A :=
  rev (firstn n (rev l)).

End Ops.

End PyList.

(** ** The backend *)

Module Backend.

(** *** Configuration and data models *)

Definition newline : string := String "010" EmptyString.
Definition dquote : string := String "034" EmptyString.

(** [SYSTEM_PROMPT] *)
Definition SYSTEM_PROMPT : string :=
  "You are an educational tutor. NEVER give direct answers to homework/tests. Instead:"
  ++ newline ++ newline
  ++ "1. Use analogies and real-world examples" ++ newline
  ++ "2. Ask guiding questions" ++ newline
  ++ "3. Give hints without conclusions" ++ newline
  ++ "4. Encourage discovery" ++ newline ++ newline
  ++ "If asked for direct answers, say: " ++ dquote
  ++ "I can't give you the answer, but let me help you understand..."
  ++ dquote ++ newline ++ newline
  ++ "Be concise, encouraging, and focus on learning concepts.".

(** [class Message(BaseModel)] *)
Record Message : Type := mkMessage { role : string; content : string }.

(** A dict literal with the two keys ["role"] and ["content"]. *)
Record Dict : Type := mkDict { dict_role : string; dict_content : string }.

(** What a list handled by [chat] may hold: [Message] objects, and the
    dict that [chat] stores over the last one. *)
Inductive item : Type :=
  | IMessage (m : Message)
  | IDict (d : Dict).

(** [class ChatRequest(BaseModel)]: an optional field holds [None] after an
    explicit null. *)
Record ChatRequest : Type := mkChatRequest {
  messages : list Message;
  temperature : option spec_float;
  max_tokens : option Z
}.

(** [class ChatResponse(BaseModel)] *)
Record ChatResponse : Type := mkChatResponse {
  response : string;
  tokens_used : Z;
  model : string
}.

(** The part of the inference client's answer that [chat] reads:
    [choices[i].message.content] for each choice and
    [usage.completion_tokens]; [None] where the attribute holds [None].
    The [message] of a choice and the [usage] of the answer are objects, as
    the client's types have them. *)
Record ChatCompletionOutput : Type := mkOutput {
  choices : list (option string);
  completion_tokens : option Z
}.

(** The keyword arguments of [client.chat_completion]. *)
Record Call : Type := mkCall {
  arg_messages : list Dict;
  arg_max_tokens : Z;
  arg_temperature : spec_float;
  arg_top_p : spec_float;
  arg_top_k : Z
}.

(** Exceptions, each with what it carries: a message, or for pydantic's
    [ValidationError] the field that was refused. *)
Inductive exn : Type :=
  | HTTPException (status_code : Z) (detail : string)
  | AttributeError (msg : string)
  | IndexError (msg : string)
  | TypeError (msg : string)
  | ValidationError (field : string)
  | InferenceError (msg : string).

(** A computation that returns or raises. *)
Definition try (A : Type) : Type := (exn + A)%type.

Definition ret {A} (a : A) : try A := inr a.
Definition raise {A} (e : exn) : try A := inl e.
Definition bind {A B} (c : try A) (k : A -> try B) : try B :=
  match c with
  | inl e => inl e
  | inr a => k a
  end.

Notation "'let*' x ':=' c 'in' k" := (bind c (fun x => k))
  (at level 10, x name, c at level 100, k at level 200, only parsing).

(** What the client of an endpoint receives: the returned body, or the
    status code and detail of the [HTTPException] that left the handler. *)
Inductive reply (A : Type) : Type :=
  | Returned (body : A)
  | Failed (status_code : Z) (detail : string).
Arguments Returned {A} body.
Arguments Failed {A} status_code detail.

(** The values read from the environment at start-up, the inference client
    and the renderings [str(e)] of the web framework's [HTTPException] and
    of pydantic's [ValidationError], which the installed releases set. *)
Class Env : Type := mkEnv {
  MODEL_NAME : string;
  MAX_TOKENS : Z;
  TEMPERATURE : spec_float;
  TOP_P : spec_float;
  TOP_K : Z;
  (** [client.chat_completion(...)]; a failure carries the message of the
      exception raised. *)
  chat_completion : Call -> string + ChatCompletionOutput;
  HTTPException_str : Z -> string -> string;
  ValidationError_str : string -> string
}.

(** *** Truth values of optional numbers, [x or y] *)

(** [bool(x)] for a float: false exactly on the two zeros. *)
Definition float_truthy (x : spec_float) : bool :=
  match x with
  | S754_zero _ => false
  | _ => true
  end.

(** [x or default] for [x : Optional[int]]. *)
Definition int_or (x : option Z) (default : Z) : Z :=
  match x with
  | Some n => if (n =? 0)%Z then default else n
  | None => default
  end.

(** [x or default] for [x : Optional[float]]. *)
Definition float_or (x : option spec_float) (default : spec_float) : spec_float :=
  match x with
  | Some f => if float_truthy f then f else default
  | None => default
  end.

(** *** Helper functions *)

(** [msg.role] and [msg.content]: attributes of a [Message]; a dict has
    none. *)
Definition role_error : exn :=
  AttributeError "'dict' object has no attribute 'role'".

Definition getattr_role (msg : item) : try string :=
  match msg with
  | IMessage m => ret (role m)
  | IDict _ => raise role_error
  end.

Definition getattr_content (msg : item) : try string :=
  match msg with
  | IMessage m => ret (content m)
  | IDict _ => raise (AttributeError "'dict' object has no attribute 'content'")
  end.

(** The loop of [format_messages_for_huggingface]: [formatted] is the list
    built so far, each step appends one dict. *)
Fixpoint format_loop (formatted : list Dict) (msgs : list item) : try (list Dict) :=
  match msgs with
  | [] => ret formatted
  | msg :: rest =>
      let* r := getattr_role msg in
      let* c := getattr_content msg in
      format_loop (formatted ++ [mkDict r c]) rest
  end.

Definition format_messages_for_huggingface (msgs : list item) : try (list Dict) :=
  format_loop [mkDict "system" SYSTEM_PROMPT] msgs.

Definition keywords : list string :=
  ["solve this"; "answer this"; "do my homework"; "just tell me";
   "what's the answer"].

(** [any(k in user_message.lower() for k in keywords)] *)
Definition detect_cheating_attempt (user_message : string) : bool :=
  existsb (fun k => PyStr.contains k (PyStr.lower user_message)) keywords.

Definition guide_marker : string :=
  "[GUIDE LEARNING] Student asking for direct answer: ".

Definition add_educational_context (user_message : string) : string :=
  if detect_cheating_attempt user_message
  then guide_marker ++ user_message
  else user_message.

(** *** Endpoints *)

Section Endpoints.
Context `{Env}.

(** [str(e)] *)
Definition str_exn (e : exn) : string :=
  match e with
  | HTTPException c d => HTTPException_str c d
  | ValidationError field => ValidationError_str field
  | AttributeError m | IndexError m | TypeError m | InferenceError m => m
  end.

(** [request.messages[-3:] if len(request.messages) > 3 else
    request.messages] *)
Definition recent_messages {A} (msgs : list A) : list A :=
  if (3 <? length msgs)%nat then PyList.slice_from msgs (-3) else msgs.

(** [modified_messages] once the dict is stored over its last element. *)
Definition modified_messages (recent : list Message) (enhanced_message : string)
  : try (list item) :=
  match PyList.setitem (map IMessage recent) (-1)
          (IDict (mkDict "user" enhanced_message)) with
  | Some l => ret l
  | None => raise (IndexError "list assignment index out of range")
  end.

(** The call [client.chat_completion(messages=formatted, max_tokens=...,
    temperature=..., top_p=TOP_P, top_k=TOP_K)] of [chat]. *)
Definition inference_call (request : ChatRequest) (formatted : list Dict) : Call :=
  {| arg_messages := formatted;
     arg_max_tokens := int_or (max_tokens request) MAX_TOKENS;
     arg_temperature := float_or (temperature request) TEMPERATURE;
     arg_top_p := TOP_P;
     arg_top_k := TOP_K |}.

(** [response.choices[0].message.content.strip()] and
    [response.usage.completion_tokens], packed in a [ChatResponse], whose
    constructor refuses a [tokens_used] that is not an integer. *)
Definition extract (raw : ChatCompletionOutput) : try ChatResponse :=
  let* choice :=
    match PyList.getitem (choices raw) 0 with
    | Some c => ret c
    | None => raise (IndexError "list index out of range")
    end in
  let* response_text :=
    match choice with
    | Some s => ret (PyStr.strip s)
    | None => raise (AttributeError "'NoneType' object has no attribute 'strip'")
    end in
  match completion_tokens raw with
  | Some n => ret (mkChatResponse response_text n MODEL_NAME)
  | None => raise (ValidationError "tokens_used")
  end.

(** [chat] from its first statement to [modified_messages[-1] = ...]:
    the validation of the request, the window of recent messages, and the
    dict stored over the last element of the copy. *)
Definition shaped_window (request : ChatRequest) : try (list item) :=
  match messages request with
  | [] => raise (HTTPException 400 "No messages provided")
  | _ :: _ =>
      let* last_message :=
        match PyList.getitem (messages request) (-1) with
        | Some m => ret m
        | None => raise (IndexError "list index out of range")
        end in
      if negb (String.eqb (role last_message) "user")
      then raise (HTTPException 400 "Last message must be from user")
      else
        let enhanced_message := add_educational_context (content last_message) in
        let recent := recent_messages (messages request) in
        modified_messages recent enhanced_message
  end.

(** The [try] block of [chat]. *)
Definition chat_body (request : ChatRequest) : try ChatResponse :=
  let* modified := shaped_window request in
  let* formatted := format_messages_for_huggingface modified in
  let* raw :=
    match chat_completion (inference_call request formatted) with
    | inr raw => ret raw
    | inl m => raise (InferenceError m)
    end in
  extract raw.

(** [chat]: an [HTTPException] leaves the handler as it is, any other
    exception as status 500. *)
Definition chat (request : ChatRequest) : reply ChatResponse :=
  match chat_body request with
  | inr r => Returned r
  | inl (HTTPException c d) => Failed c d
  | inl e => Failed 500 ("Internal server error: " ++ str_exn e)
  end.

(** The [try] block of [chat] again, with the calls of the inference
    client it makes on the way, in order. *)
Definition chat_body_traced (request : ChatRequest)
  : list Call * try ChatResponse :=
  match shaped_window request with
  | inl e => ([], inl e)
  | inr modified =>
      match format_messages_for_huggingface modified with
      | inl e => ([], inl e)
      | inr formatted =>
          let call := inference_call request formatted in
          ([call],
           let* raw :=
             match chat_completion call with
             | inr raw => ret raw
             | inl m => raise (InferenceError m)
             end in
           extract raw)
      end
  end.

(** The role and the content an entry carries, be it a [Message] or a
    dict. *)
Definition message_fields (m : Message) : string * string :=
  (role m, content m).

Definition item_fields (x : item) : string * string :=
  match x with
  | IMessage m => message_fields m
  | IDict d => (dict_role d, dict_content d)
  end.

(** The window in the words of the specification: the whole conversation
    when it has at most 3 messages, its last 3 otherwise. *)
Definition spec_window (msgs : list Message) : list Message :=
  if (length msgs <=? 3)%nat then msgs else PyList.last_n 3 msgs.

(** The body returned by [analyze_question]. *)
Record Analysis : Type := mkAnalysis {
  is_direct_answer_request : bool;
  recommendation : string
}.

(** The [try] block of [analyze_question]. *)
Definition analyze_question_body (request : ChatRequest) : try Analysis :=
  match messages request with
  | [] => raise (HTTPException 400 "No messages provided")
  | _ :: _ =>
      let* last :=
        match PyList.getitem (messages request) (-1) with
        | Some m => ret m
        | None => raise (IndexError "list index out of range")
        end in
      let last_message := content last in
      let is_cheating := detect_cheating_attempt last_message in
      ret {| is_direct_answer_request := is_cheating;
             recommendation :=
               if is_cheating then "Reframe as learning opportunity"
               else "Safe to answer educationally" |}
  end.

(** [analyze_question]: its single handler catches every exception, the
    [HTTPException] of the [try] block included, and raises status 500. *)
Definition analyze_question (request : ChatRequest) : reply Analysis :=
  match analyze_question_body request with
  | inr r => Returned r
  | inl e => Failed 500 (str_exn e)
  end.

End Endpoints.

(** *** A configuration to run the endpoints on *)

(** [str(e)] for an [HTTPException] of Starlette: ["{status_code}:
    {detail}"]. *)
Definition starlette_str (status_code : Z) (detail : string) : string :=
  DecimalString.NilZero.string_of_int (Z.to_int status_code) ++ ": " ++ detail.

(** [str(e)] for the [ValidationError] of a [ChatResponse] whose [field]
    is [None], as pydantic 2 words it, up to the closing line that names
    the release. *)
Definition pydantic_str (field : string) : string :=
  "1 validation error for ChatResponse" ++ newline ++ field ++ newline
  ++ "  Input should be a valid integer [type=int_type, input_value=None, input_type=NoneType]".

(** The binary64 values nearest to 0.5 and 0.8. *)
Definition float_0_5 : spec_float := S754_finite false 4503599627370496 (-53).
Definition float_0_8 : spec_float := S754_finite false 7205759403792794 (-53).

(** The defaults of the configuration section, around a given client. *)
Definition default_env (client : Call -> string + ChatCompletionOutput) : Env :=
  {| MODEL_NAME := "Qwen/Qwen2.5-1.5B-Instruct";
     MAX_TOKENS := 512;
     TEMPERATURE := float_0_5;
     TOP_P := float_0_8;
     TOP_K := 30;
     chat_completion := client;
     HTTPException_str := starlette_str;
     ValidationError_str := pydantic_str |}.

(** A client that answers every call with one choice. *)
Definition canned_client (c : Call) : string + ChatCompletionOutput :=
  inr {| choices := [Some " Let us look at it together. "];
         completion_tokens := Some 8%Z |}.

(** A client whose every call raises. *)
Definition failing_client (c : Call) : string + ChatCompletionOutput :=
  inl "503 Service Unavailable".

End Backend.

(** ** The store: list objects and the objects they refer to

    [chat] receives the list [request.messages] by reference, may keep that
    very list as [recent_messages], copies it, and assigns to an element of
    the copy.  Here lists hold references, and every statement of the
    handler up to the formatting of the payload acts on a store. *)

Module Store.
Import Backend.

Definition loc : Type := positive.

Inductive obj : Type :=
  | OList (items : list loc)
  | OMessage (m : Message)
  | ODict (d : Dict).

Abbreviation heap := (gmap loc obj).

(** A statement: from a store to the store after it and a value or an
    exception. *)
Definition M (A : Type) : Type := heap -> heap * try A.

Definition mret {A} (a : A) : M A := fun h => (h, inr a).
Definition mraise {A} (e : exn) : M A := fun h => (h, inl e).
Definition mbind {A B} (c : M A) (k : A -> M B) : M B :=
  fun h =>
    match c h with
    | (h', inr a) => k a h'
    | (h', inl e) => (h', inl e)
    end.

Notation "'do' x '<-' c ';' k" := (mbind c (fun x => k))
  (at level 10, x name, c at level 100, k at level 200, only parsing).

(** A new object, at a location the store does not use yet. *)
Definition alloc (o : obj) : M loc :=
  fun h => let l := fresh (dom h) in (<[l := o]> h, inr l).

(** The elements of the list at [l]. *)
Definition list_items (l : loc) : M (list loc) :=
  fun h =>
    match h !! l with
    | Some (OList items) => (h, inr items)
    | _ => (h, inl (TypeError "object is not a list"))
    end.

(** [x.role] and [x.content] for the object at [l]. *)
Definition load_role (l : loc) : M string :=
  fun h =>
    match h !! l with
    | Some (OMessage m) => (h, inr (role m))
    | Some (ODict _) =>
        (h, inl (AttributeError "'dict' object has no attribute 'role'"))
    | _ => (h, inl (AttributeError "object has no attribute 'role'"))
    end.

Definition load_content (l : loc) : M string :=
  fun h =>
    match h !! l with
    | Some (OMessage m) => (h, inr (content m))
    | Some (ODict _) =>
        (h, inl (AttributeError "'dict' object has no attribute 'content'"))
    | _ => (h, inl (AttributeError "object has no attribute 'content'"))
    end.

(** [lst[i] = x], in place. *)
Definition list_setitem (lst : loc) (i : Z) (x : loc) : M unit :=
  do items <- list_items lst;
  match PyList.setitem items i x with
  | Some items' => fun h => (<[lst := OList items']> h, inr tt)
  | None => mraise (IndexError "list assignment index out of range")
  end.

(** [lst.append(x)], in place. *)
Definition list_append (lst : loc) (x : loc) : M unit :=
  do items <- list_items lst;
  fun h => (<[lst := OList (items ++ [x])]> h, inr tt).

(** [lst[i:]], a new list. *)
Definition list_slice_from (lst : loc) (i : Z) : M loc :=
  do items <- list_items lst;
  alloc (OList (PyList.slice_from items i)).

(** [lst.copy()], a new list with the same elements. *)
Definition list_copy (lst : loc) : M loc :=
  do items <- list_items lst;
  alloc (OList items).

(** [chat] from its first statement to [modified_messages[-1] = ...];
    [msgs] is [request.messages], the result is [modified_messages]. *)
Definition chat_shape (msgs : loc) : M loc :=
  do items <- list_items msgs;
  match items with
  | [] => mraise (HTTPException 400 "No messages provided")
  | _ :: _ =>
      do last_message <-
        match PyList.getitem items (-1) with
        | Some l => mret l
        | None => mraise (IndexError "list index out of range")
        end;
      do r <- load_role last_message;
      if negb (String.eqb r "user")
      then mraise (HTTPException 400 "Last message must be from user")
      else
        do c <- load_content last_message;
        let enhanced_message := add_educational_context c in
        do recent_messages <-
          (if (3 <? length items)%nat then list_slice_from msgs (-3)
           else mret msgs);
        do modified_messages <- list_copy recent_messages;
        do d <- alloc (ODict (mkDict "user" enhanced_message));
        do _ <- list_setitem modified_messages (-1) d;
        mret modified_messages
  end.

(** The loop of [format_messages_for_huggingface] over the elements still
    to visit. *)
Fixpoint format_loop (formatted : loc) (rest : list loc) : M unit :=
  match rest with
  | [] => mret tt
  | msg :: rest' =>
      do r <- load_role msg;
      do c <- load_content msg;
      do d <- alloc (ODict (mkDict r c));
      do _ <- list_append formatted d;
      format_loop formatted rest'
  end.

Definition format_messages_for_huggingface (msgs : loc) : M loc :=
  do sys <- alloc (ODict (mkDict "system" SYSTEM_PROMPT));
  do formatted <- alloc (OList [sys]);
  do items <- list_items msgs;
  do _ <- format_loop formatted items;
  mret formatted.

(** [chat] up to the evaluation of the [messages] argument of the call. *)
Definition chat_prepare (msgs : loc) : M loc :=
  do modified_messages <- chat_shape msgs;
  format_messages_for_huggingface modified_messages.

(** Running [c] leaves every object of [base] as it is, and a value it
    returns satisfies [post]. *)
Definition keeps {A} (base : heap) (c : M A) (post : A -> Prop) : Prop :=
  forall h, base ⊆ h ->
    base ⊆ (c h).1 /\
    match (c h).2 with
    | inr a => post a
    | inl _ => True
    end.

(** The contents of the object at [l], as an [item]. *)
Definition view_item (h : heap) (l : loc) : option item :=
  match h !! l with
  | Some (OMessage m) => Some (IMessage m)
  | Some (ODict d) => Some (IDict d)
  | _ => None
  end.

(** The contents of the elements of a list of references. *)
Fixpoint view_items (h : heap) (ls : list loc) : option (list item) :=
  match ls with
  | [] => Some []
  | l :: ls' =>
      match view_item h l, view_items h ls' with
      | Some x, Some xs => Some (x :: xs)
      | _, _ => None
      end
  end.

(** The contents of the list object at [l]. *)
Definition view_list (h : heap) (l : loc) : option (list item) :=
  match h !! l with
  | Some (OList items) => view_items h items
  | _ => None
  end.

(** A store holding [request.messages] at location 1 and its [Message]
    objects from location 2 on. *)
Fixpoint store_messages (next : loc) (msgs : list Message) (h : heap)
  : list loc * heap :=
  match msgs with
  | [] => ([], h)
  | m :: msgs' =>
      let '(ls, h') := store_messages (Pos.succ next) msgs' h in
      (next :: ls, <[next := OMessage m]> h')
  end.

Definition request_store (msgs : list Message) : heap :=
  let '(ls, h) := store_messages 2%positive msgs ∅ in
  <[1%positive := OList ls]> h.

End Store.

(** * Properties *)

(** ** Strings *)

Module PyStrFacts.
Import PyStr.

Lemma startswith_app (k post : string) : startswith (k ++ post) k = true.
Proof.
  induction k as [|a k IH]; simpl; [reflexivity|].
  rewrite Ascii.eqb_refl. exact IH.
Qed.

Lemma startswith_inv (s k : string) :
  startswith s k = true -> exists post, s = k ++ post.
Proof.
  revert s. induction k as [|a k IH]; intros s Hs.
  - exists s. reflexivity.
  - destruct s as [|b s]; simpl in Hs; [discriminate|].
    apply andb_true_iff in Hs as [Hab Hs].
    apply Ascii.eqb_eq in Hab. subst b.
    destruct (IH _ Hs) as [post ->]. exists post. reflexivity.
Qed.

Lemma append_assoc (a b c : string) : (a ++ b) ++ c = a ++ (b ++ c).
Proof. induction a as [|x a IH]; simpl; [reflexivity|now rewrite IH]. Qed.

Lemma contains_startswith (k s : string) :
  startswith s k = true -> contains k s = true.
Proof. intros Hs. destruct s; simpl; rewrite Hs; reflexivity. Qed.

(** [contains] finds exactly the occurrences. *)
Lemma contains_occurs (k s : string) : contains k s = true <-> occurs_in k s.
Proof.
  split.
  - induction s as [|c s IH]; simpl; intros Hc.
    + apply orb_true_iff in Hc as [Hc|Hc]; [|discriminate].
      destruct (startswith_inv _ _ Hc) as [post Hp].
      exists EmptyString, post. exact Hp.
    + apply orb_true_iff in Hc as [Hc|Hc].
      * destruct (startswith_inv _ _ Hc) as [post Hp].
        exists EmptyString, post. exact Hp.
      * destruct (IH Hc) as (pre & post & ->).
        exists (String c pre), post. reflexivity.
  - intros (pre & post & ->).
    induction pre as [|c pre IH]; simpl.
    + apply contains_startswith, startswith_app.
    + rewrite IH. apply orb_true_r.
Qed.

Lemma occurs_in_app_l (k p s : string) : occurs_in k s -> occurs_in k (p ++ s).
Proof.
  intros (pre & post & ->). exists (p ++ pre), post.
  now rewrite append_assoc.
Qed.

Lemma occurs_in_app_r (k s p : string) : occurs_in k s -> occurs_in k (s ++ p).
Proof.
  intros (pre & post & ->). exists pre, (post ++ p).
  now rewrite !append_assoc.
Qed.

Lemma occurs_in_refl (s : string) : occurs_in s s.
Proof.
  exists EmptyString, EmptyString. simpl.
  induction s as [|c s IH]; simpl; [reflexivity|now rewrite <- IH].
Qed.

Lemma contains_app_l (k p s : string) :
  contains k s = true -> contains k (p ++ s) = true.
Proof. rewrite !contains_occurs. apply occurs_in_app_l. Qed.

Lemma lower_app (a b : string) : lower (a ++ b) = lower a ++ lower b.
Proof. induction a as [|x a IH]; simpl; [reflexivity|now rewrite IH]. Qed.

Lemma lower_length (s : string) : String.length (lower s) = String.length s.
Proof. induction s as [|c s IH]; simpl; [reflexivity|now rewrite IH]. Qed.

Example lower_demo : lower "Just Tell Me" = "just tell me".
Proof. reflexivity. Qed.

Example contains_demo : contains "tell" "just tell me" = true.
Proof. reflexivity. Qed.

Example strip_demo : strip "  a b  " = "a b".
Proof. reflexivity. Qed.

End PyStrFacts.

(** ** Lists *)

Module PyListFacts.
Import PyList.
Local Open Scope list_scope.

Section Facts.
Context {A : Type}.
Implicit Types (l pre : list A) (x y : A).

Lemma norm_index_last pre x :
  norm_index (pre ++ [x]) (-1) = Some (length pre).
Proof.
  unfold norm_index. rewrite length_app. simpl.
  replace (-1 + Z.of_nat (length pre + 1))%Z with (Z.of_nat (length pre)) by lia.
  rewrite Nat2Z.id.
  destruct (Z.leb_spec 0 (Z.of_nat (length pre))); [|lia].
  destruct (Z.ltb_spec (Z.of_nat (length pre)) (Z.of_nat (length pre + 1)));
    [reflexivity|lia].
Qed.

(** [l[-1]] is the last element. *)
Lemma getitem_last pre x : getitem (pre ++ [x]) (-1) = Some x.
Proof.
  unfold getitem. rewrite norm_index_last.
  rewrite nth_error_app2 by lia. now rewrite Nat.sub_diag.
Qed.

(** [l[-1] = y] replaces the last element and nothing else. *)
Lemma setitem_last pre x y : setitem (pre ++ [x]) (-1) y = Some (pre ++ [y]).
Proof.
  unfold setitem. rewrite norm_index_last. f_equal.
  rewrite firstn_app, Nat.sub_diag, firstn_all. simpl. rewrite app_nil_r.
  f_equal. f_equal.
  rewrite skipn_app, skipn_all2 by lia.
  replace (S (length pre) - length pre) with 1 by lia. reflexivity.
Qed.

Lemma getitem_nil (i : Z) : getitem (@nil A) i = None.
Proof.
  unfold getitem. destruct (norm_index [] i) as [[|j]|]; reflexivity.
Qed.

(** [l[-n:]] on a list of at least [n] elements drops all but [n]. *)
Lemma slice_from_neg (n : nat) l :
  (0 < n <= length l)%nat ->
  slice_from l (- Z.of_nat n) = skipn (length l - n) l.
Proof.
  intros Hn. unfold slice_from.
  destruct (Z.ltb_spec (- Z.of_nat n) 0); [|lia].
  f_equal. lia.
Qed.

Lemma last_n_skipn (n : nat) l :
  (n <= length l)%nat -> last_n n l = skipn (length l - n) l.
Proof.
  intros Hn. unfold last_n.
  rewrite firstn_rev. apply rev_involutive.
Qed.

Lemma last_n_drop (n : nat) l : last_n n l = skipn (length l - n) l.
Proof. unfold last_n. rewrite firstn_rev. apply rev_involutive. Qed.

Lemma last_n_all (n : nat) l : (length l <= n)%nat -> last_n n l = l.
Proof.
  intros Hn. unfold last_n.
  rewrite firstn_all2 by (rewrite length_rev; exact Hn).
  apply rev_involutive.
Qed.

End Facts.

Lemma last_n_map {A B : Type} (f : A -> B) (n : nat) (l : list A) :
  last_n n (map f l) = map f (last_n n l).
Proof. now rewrite !last_n_drop, length_map, skipn_map. Qed.

Example getitem_demo : getitem [1; 2; 3]%Z (-1) = Some 3%Z.
Proof. reflexivity. Qed.

Example setitem_demo : setitem [1; 2; 3]%Z (-1) 9%Z = Some [1; 2; 9]%Z.
Proof. reflexivity. Qed.

Example slice_demo : slice_from [1; 2; 3; 4; 5]%Z (-3) = [3; 4; 5]%Z.
Proof. reflexivity. Qed.

Example slice_short_demo : slice_from [1; 2]%Z (-3) = [1; 2]%Z.
Proof. reflexivity. Qed.

End PyListFacts.

(** ** The helper functions *)

Module HelperFacts.
Import PyStr PyStrFacts Backend.

Lemma detect_cheating_attempt_true (text : string) :
  detect_cheating_attempt text = true <->
  exists k, In k keywords /\ occurs_in k (lower text).
Proof.
  unfold detect_cheating_attempt. rewrite existsb_exists.
  split; intros (k & Hk & Hc); exists k; split; try exact Hk;
    now apply contains_occurs.
Qed.

(** C2. [detect_cheating_attempt] answers true exactly when the lowercase
    form of the text contains one of the five trigger phrases; it is true of
    "Just Tell Me the answer" and false of "How does photosynthesis
    work?". *)
Theorem detect_cheating_attempt_spec :
  (forall text : string,
     detect_cheating_attempt text = true <->
     (occurs_in "solve this" (lower text) \/
      occurs_in "answer this" (lower text) \/
      occurs_in "do my homework" (lower text) \/
      occurs_in "just tell me" (lower text) \/
      occurs_in "what's the answer" (lower text))) /\
  detect_cheating_attempt "Just Tell Me the answer" = true /\
  detect_cheating_attempt "How does photosynthesis work?" = false.
Proof.
  split; [|split; reflexivity].
  intros text. rewrite detect_cheating_attempt_true. unfold keywords.
  split.
  - intros (k & Hk & Hc). simpl in Hk.
    destruct Hk as [<-|[<-|[<-|[<-|[<-|[]]]]]]; tauto.
  - intros [Hc|[Hc|[Hc|[Hc|Hc]]]]; eexists; (split; [|exact Hc]);
      simpl; tauto.
Qed.

(** C9. Annotating a text does not change what [detect_cheating_attempt]
    says of it. *)
Theorem detect_add_educational_context (text : string) :
  detect_cheating_attempt (add_educational_context text)
  = detect_cheating_attempt text.
Proof.
  unfold add_educational_context.
  destruct (detect_cheating_attempt text) eqn:Hd; [|exact Hd].
  apply detect_cheating_attempt_true in Hd as (k & Hk & Hc).
  apply detect_cheating_attempt_true. exists k. split; [exact Hk|].
  rewrite lower_app. now apply occurs_in_app_l.
Qed.

Lemma add_educational_context_occurs (text : string) :
  occurs_in text (add_educational_context text).
Proof.
  unfold add_educational_context.
  destruct (detect_cheating_attempt text).
  - apply occurs_in_app_l, occurs_in_refl.
  - apply occurs_in_refl.
Qed.

Lemma add_educational_context_length (text : string) :
  detect_cheating_attempt text = true ->
  String.length (add_educational_context text)
  = String.length guide_marker + String.length text.
Proof.
  unfold add_educational_context. intros ->.
  generalize guide_marker. intros p.
  induction p as [|c p IH]; simpl; [reflexivity|now rewrite IH].
Qed.

Example add_educational_context_demo :
  add_educational_context "just tell me 6 x 7" =
  "[GUIDE LEARNING] Student asking for direct answer: just tell me 6 x 7".
Proof. reflexivity. Qed.

Example add_educational_context_plain_demo :
  add_educational_context "What is 2 + 2?" = "What is 2 + 2?".
Proof. reflexivity. Qed.

End HelperFacts.

(** ** The window of recent messages *)

Module WindowFacts.
Import PyList PyListFacts Backend.
Local Open Scope list_scope.

Section Window.
Context {A : Type}.
Implicit Types (msgs earlier : list A) (m : A).

Lemma recent_messages_short msgs :
  length msgs <= 3 -> recent_messages msgs = msgs.
Proof.
  intros Hlen. unfold recent_messages.
  destruct (Nat.ltb_spec 3 (length msgs)); [lia|reflexivity].
Qed.

Lemma recent_messages_long msgs :
  3 < length msgs -> recent_messages msgs = skipn (length msgs - 3) msgs.
Proof.
  intros Hlen. unfold recent_messages.
  destruct (Nat.ltb_spec 3 (length msgs)); [|lia].
  apply (slice_from_neg 3). lia.
Qed.

Lemma recent_messages_last_n msgs : recent_messages msgs = last_n 3 msgs.
Proof.
  destruct (Nat.le_gt_cases (length msgs) 3) as [Hlen|Hlen].
  - now rewrite recent_messages_short, last_n_all.
  - rewrite recent_messages_long, last_n_skipn by lia. reflexivity.
Qed.

Lemma recent_messages_length msgs :
  length (recent_messages msgs) = Nat.min 3 (length msgs).
Proof.
  destruct (Nat.le_gt_cases (length msgs) 3) as [Hlen|Hlen].
  - rewrite recent_messages_short by exact Hlen. lia.
  - rewrite recent_messages_long, length_skipn by exact Hlen. lia.
Qed.

(** The window ends with the last message of the conversation, after the
    last two of the earlier ones. *)
Lemma recent_messages_snoc earlier m :
  recent_messages (earlier ++ [m]) = last_n 2 earlier ++ [m].
Proof.
  destruct (Nat.le_gt_cases (length earlier) 2) as [Hlen|Hlen].
  - rewrite recent_messages_short by (rewrite length_app; simpl; lia).
    now rewrite last_n_all.
  - rewrite recent_messages_long by (rewrite length_app; simpl; lia).
    rewrite last_n_skipn by lia.
    rewrite length_app, skipn_app. simpl.
    replace (length earlier + 1 - 3) with (length earlier - 2) by lia.
    replace (length earlier - 2 - length earlier) with 0 by lia.
    reflexivity.
Qed.

Lemma last_n_length (n : nat) msgs : length (last_n n msgs) = Nat.min n (length msgs).
Proof.
  unfold last_n. now rewrite length_rev, length_firstn, length_rev.
Qed.

End Window.

(** What [recent_messages] selects: a conversation of at most 3 messages
    whole; of a longer one the last 3 messages, in the order they have in
    the conversation. *)
Theorem recent_messages_window (msgs : list Message) :
  (length msgs <= 3 -> recent_messages msgs = msgs) /\
  (3 < length msgs ->
     recent_messages msgs = last_n 3 msgs /\
     length (recent_messages msgs) = 3 /\
     exists earlier, msgs = earlier ++ recent_messages msgs).
Proof.
  split.
  - apply recent_messages_short.
  - intros Hlen. split; [apply recent_messages_last_n|]. split.
    + rewrite recent_messages_length. lia.
    + exists (firstn (length msgs - 3) msgs).
      rewrite recent_messages_long by exact Hlen.
      symmetry. apply firstn_skipn.
Qed.

Example recent_messages_demo :
  recent_messages [1; 2; 3; 4; 5]%Z = [3; 4; 5]%Z.
Proof. reflexivity. Qed.

End WindowFacts.

(** ** Shaping and formatting *)

Module ShapingFacts.
Import PyStr PyStrFacts PyList PyListFacts Backend HelperFacts WindowFacts.
Local Open Scope list_scope.

Lemma modified_messages_snoc (pre : list Message) (m : Message) (text : string) :
  modified_messages (pre ++ [m]) text
  = ret (map IMessage pre ++ [IDict (mkDict "user" text)]).
Proof.
  unfold modified_messages. rewrite map_app. simpl.
  now rewrite setitem_last.
Qed.

Lemma shaped_window_nil (request : ChatRequest) :
  messages request = [] ->
  shaped_window request = raise (HTTPException 400 "No messages provided").
Proof. unfold shaped_window. now intros ->. Qed.

Lemma shaped_window_snoc (request : ChatRequest) earlier (m : Message) :
  messages request = earlier ++ [m] ->
  shaped_window request =
    if String.eqb (role m) "user"
    then ret (map IMessage (last_n 2 earlier)
              ++ [IDict (mkDict "user" (add_educational_context (content m)))])
    else raise (HTTPException 400 "Last message must be from user").
Proof.
  intros Hm. unfold shaped_window. rewrite Hm.
  destruct (earlier ++ [m]) as [|m0 rest] eqn:E.
  { now destruct earlier. }
  rewrite <- E, getitem_last. simpl.
  destruct (String.eqb (role m) "user"); simpl; [|reflexivity].
  now rewrite recent_messages_snoc, modified_messages_snoc.
Qed.

(** The loop stops with [AttributeError] at the first dict it meets. *)
Lemma format_loop_dict (ms : list Message) (d : Dict) (rest : list item) :
  forall formatted,
    format_loop formatted (map IMessage ms ++ IDict d :: rest) = raise role_error.
Proof.
  induction ms as [|m ms IH]; intros formatted; simpl; [reflexivity|].
  apply IH.
Qed.

(** On [Message] objects alone the loop appends one dict per message. *)
Lemma format_loop_messages (ms : list Message) :
  forall formatted,
    format_loop formatted (map IMessage ms)
    = ret (formatted ++ map (fun m => mkDict (role m) (content m)) ms).
Proof.
  induction ms as [|m ms IH]; intros formatted; simpl.
  - now rewrite app_nil_r.
  - rewrite IH, <- app_assoc. reflexivity.
Qed.

Lemma format_messages_of_messages (ms : list Message) :
  format_messages_for_huggingface (map IMessage ms)
  = ret (mkDict "system" SYSTEM_PROMPT
         :: map (fun m => mkDict (role m) (content m)) ms).
Proof. unfold format_messages_for_huggingface. now rewrite format_loop_messages. Qed.

(** Every list cut from the end of a conversation by [last_n] and closed
    by a dict is refused. *)
Lemma format_shaped_window (ms : list Message) (d : Dict) :
  format_messages_for_huggingface (map IMessage ms ++ [IDict d])
  = raise role_error.
Proof. unfold format_messages_for_huggingface. apply format_loop_dict. Qed.

(** The shaped window is the window of recent messages with the entry
    for the annotated text in the place of its last message. *)
Lemma shaped_window_of_recent (request : ChatRequest) earlier (m : Message) :
  messages request = earlier ++ [m] ->
  role m = "user"%string ->
  shaped_window request =
    ret (map IMessage (removelast (recent_messages (messages request)))
         ++ [IDict (mkDict "user" (add_educational_context (content m)))]).
Proof.
  intros Hm Hr. rewrite (shaped_window_snoc _ _ _ Hm), Hr, Hm.
  now rewrite recent_messages_snoc, removelast_last.
Qed.

Example format_messages_demo :
  format_messages_for_huggingface
    [IMessage (mkMessage "user" "hello"); IMessage (mkMessage "assistant" "hi")]
  = ret [mkDict "system" SYSTEM_PROMPT; mkDict "user" "hello";
         mkDict "assistant" "hi"].
Proof. reflexivity. Qed.

Example format_messages_dict_demo :
  format_messages_for_huggingface
    [IMessage (mkMessage "assistant" "hi"); IDict (mkDict "user" "hello")]
  = raise role_error.
Proof. reflexivity. Qed.

Section Chat.
Context `{Env}.

Lemma chat_body_snoc (request : ChatRequest) earlier (m : Message) :
  messages request = earlier ++ [m] ->
  chat_body request =
    if String.eqb (role m) "user" then raise role_error
    else raise (HTTPException 400 "Last message must be from user").
Proof.
  intros Hm. unfold chat_body. rewrite (shaped_window_snoc _ _ _ Hm).
  destruct (String.eqb (role m) "user"); simpl; [|reflexivity].
  now rewrite format_shaped_window.
Qed.

Lemma chat_nil (request : ChatRequest) :
  messages request = [] -> chat request = Failed 400 "No messages provided".
Proof.
  intros Hm. unfold chat, chat_body. now rewrite shaped_window_nil.
Qed.

Lemma chat_snoc (request : ChatRequest) earlier (m : Message) :
  messages request = earlier ++ [m] ->
  chat request =
    if String.eqb (role m) "user"
    then Failed 500
           "Internal server error: 'dict' object has no attribute 'role'"
    else Failed 400 "Last message must be from user".
Proof.
  intros Hm. unfold chat. rewrite (chat_body_snoc _ _ _ Hm).
  destruct (String.eqb (role m) "user"); reflexivity.
Qed.

End Chat.

End ShapingFacts.

(** ** The endpoints *)

Module EndpointFacts.
Import PyStr PyStrFacts PyList PyListFacts Backend HelperFacts WindowFacts
  ShapingFacts.
Local Open Scope list_scope.

Lemma snoc_cases {A : Type} (l : list A) :
  l = [] \/ exists earlier x, l = earlier ++ [x].
Proof.
  induction l as [|x l _] using rev_ind; [now left|].
  right. now exists l, x.
Qed.

Section Endpoints.
Context `{Env}.

(** C4. [chat] answers with status 400 exactly when the conversation is
    empty or its last message has a role other than "user"; the detail
    then names which of the two it was. *)
Theorem chat_validation_error (request : ChatRequest) :
  ((exists detail, chat request = Failed 400 detail) <->
   (messages request = [] \/
    exists earlier m, messages request = earlier ++ [m] /\ role m <> "user"%string))
  /\ (messages request = [] -> chat request = Failed 400 "No messages provided")
  /\ (forall earlier m,
        messages request = earlier ++ [m] -> role m <> "user"%string ->
        chat request = Failed 400 "Last message must be from user").
Proof.
  assert (Hbad : forall earlier m,
             messages request = earlier ++ [m] -> role m <> "user"%string ->
             chat request = Failed 400 "Last message must be from user").
  { intros earlier m Hm Hr. rewrite (chat_snoc _ _ _ Hm).
    apply String.eqb_neq in Hr. now rewrite Hr. }
  split; [|split; [apply chat_nil|exact Hbad]].
  split.
  - intros [detail Hd].
    destruct (snoc_cases (messages request)) as [Hm|(earlier & m & Hm)];
      [now left|right].
    exists earlier, m. split; [exact Hm|].
    rewrite (chat_snoc _ _ _ Hm) in Hd.
    destruct (String.eqb_spec (role m) "user") as [_|Hr]; [discriminate|exact Hr].
  - intros [Hm|(earlier & m & Hm & Hr)]; eexists.
    + now apply chat_nil.
    + now apply (Hbad earlier m).
Qed.

(** C3, as the code has it: on a conversation that passes the validation,
    formatting stops at the dict stored over the last message, no payload
    is built, and [chat] answers with status 500. *)
Theorem chat_valid_request_fails (request : ChatRequest) earlier (m : Message) :
  messages request = earlier ++ [m] ->
  role m = "user"%string ->
  chat request =
    Failed 500 "Internal server error: 'dict' object has no attribute 'role'".
Proof.
  intros Hm Hr. rewrite (chat_snoc _ _ _ Hm), Hr. reflexivity.
Qed.

(** C7, as the code has it: on a conversation that passes the validation
    the window ends with a dict of role "user" holding the annotated text,
    and [format_messages_for_huggingface] raises on that window instead of
    returning it behind the system entry. *)
Theorem shaped_window_not_formatted (request : ChatRequest) earlier (m : Message) :
  messages request = earlier ++ [m] ->
  role m = "user"%string ->
  exists window,
    shaped_window request =
      ret (window
           ++ [IDict (mkDict (role m) (add_educational_context (content m)))])
    /\ format_messages_for_huggingface
         (window
          ++ [IDict (mkDict (role m) (add_educational_context (content m)))])
       = raise role_error.
Proof.
  intros Hm Hr. exists (map IMessage (last_n 2 earlier)).
  rewrite (shaped_window_snoc _ _ _ Hm), Hr. split; [reflexivity|].
  apply format_shaped_window.
Qed.

(** C5, as the code has it: on an empty list of messages
    [analyze_question] answers with status 500, the [HTTPException] of
    status 400 being caught by its own handler. *)
Theorem analyze_question_empty (t : option spec_float) (mt : option Z) :
  analyze_question (mkChatRequest [] t mt)
  = Failed 500 (HTTPException_str 400 "No messages provided").
Proof. reflexivity. Qed.

(** On a list that is not empty, [analyze_question] classifies the content
    of the last message. *)
Lemma analyze_question_snoc (request : ChatRequest) earlier (m : Message) :
  messages request = earlier ++ [m] ->
  analyze_question request =
    Returned
      {| is_direct_answer_request := detect_cheating_attempt (content m);
         recommendation :=
           if detect_cheating_attempt (content m)
           then "Reframe as learning opportunity"
           else "Safe to answer educationally" |}.
Proof.
  intros Hm. unfold analyze_question, analyze_question_body. rewrite Hm.
  destruct (earlier ++ [m]) as [|m0 rest] eqn:E.
  { now destruct earlier. }
  rewrite <- E, getitem_last. reflexivity.
Qed.

(** The keyword arguments as [chat] writes them: a supplied [max_tokens]
    of 0 or [temperature] of zero gives way to [MAX_TOKENS] or
    [TEMPERATURE]; any other supplied value is the argument. *)
Theorem inference_call_defaults (request : ChatRequest) (formatted : list Dict) :
  (max_tokens request = Some 0%Z ->
     arg_max_tokens (inference_call request formatted) = MAX_TOKENS) /\
  (forall n, max_tokens request = Some n -> n <> 0%Z ->
     arg_max_tokens (inference_call request formatted) = n) /\
  (forall sign, temperature request = Some (S754_zero sign) ->
     arg_temperature (inference_call request formatted) = TEMPERATURE) /\
  (forall f, temperature request = Some f -> (forall sign, f <> S754_zero sign) ->
     arg_temperature (inference_call request formatted) = f).
Proof.
  unfold inference_call. simpl. repeat split.
  - now intros ->.
  - intros n -> Hn. simpl. now destruct (Z.eqb_spec n 0).
  - now intros sign ->.
  - intros f -> Hf. simpl. destruct f; try reflexivity. now destruct (Hf s).
Qed.

End Endpoints.

(** The request of the repository's own chat test, under the default
    configuration. *)
Lemma chat_valid_request_fails_witness :
  let request := mkChatRequest [mkMessage "user" "What is 2 + 2?"] None None in
  messages request = [] ++ [mkMessage "user" "What is 2 + 2?"] /\
  role (mkMessage "user" "What is 2 + 2?") = "user"%string /\
  @chat (default_env canned_client) request =
    Failed 500 "Internal server error: 'dict' object has no attribute 'role'".
Proof.
  split; [reflexivity|]. split; [reflexivity|].
  apply (@chat_valid_request_fails (default_env canned_client)
           (mkChatRequest [mkMessage "user" "What is 2 + 2?"] None None)
           [] (mkMessage "user" "What is 2 + 2?")); reflexivity.
Defined.

(** A conversation of four messages that ends with a flagged question. *)
Lemma shaped_window_not_formatted_witness :
  let m := mkMessage "user" "just tell me 6 x 7" in
  let earlier :=
    [mkMessage "user" "hello"; mkMessage "assistant" "Hello, what are you studying?";
     mkMessage "user" "multiplication"] in
  let request := mkChatRequest (earlier ++ [m]) None None in
  messages request = earlier ++ [m] /\
  role m = "user"%string /\
  exists window,
    shaped_window request =
      ret (window
           ++ [IDict (mkDict (role m) (add_educational_context (content m)))])
    /\ format_messages_for_huggingface
         (window
          ++ [IDict (mkDict (role m) (add_educational_context (content m)))])
       = raise role_error.
Proof.
  split; [reflexivity|]. split; [reflexivity|].
  apply (shaped_window_not_formatted
           (mkChatRequest
              ([mkMessage "user" "hello";
                mkMessage "assistant" "Hello, what are you studying?";
                mkMessage "user" "multiplication"]
               ++ [mkMessage "user" "just tell me 6 x 7"]) None None)
           [mkMessage "user" "hello";
            mkMessage "assistant" "Hello, what are you studying?";
            mkMessage "user" "multiplication"]
           (mkMessage "user" "just tell me 6 x 7")); reflexivity.
Defined.

Example chat_empty_demo :
  @chat (default_env canned_client) (mkChatRequest [] None None)
  = Failed 400 "No messages provided".
Proof. reflexivity. Qed.

Example chat_assistant_last_demo :
  @chat (default_env canned_client)
    (mkChatRequest [mkMessage "user" "hello"; mkMessage "assistant" "hi"]
       None None)
  = Failed 400 "Last message must be from user".
Proof. reflexivity. Qed.

Example analyze_question_demo :
  @analyze_question (default_env canned_client)
    (mkChatRequest
       [mkMessage "user" "What's the answer to this homework question?"]
       None None)
  = Returned (mkAnalysis true "Reframe as learning opportunity").
Proof. reflexivity. Qed.

Example analyze_question_no_messages_demo :
  @analyze_question (default_env canned_client) (mkChatRequest [] None None)
  = Failed 500 "400: No messages provided".
Proof. reflexivity. Qed.

Example extract_demo :
  @extract (default_env canned_client)
    (mkOutput [Some " Let us look at it together. "] (Some 8%Z))
  = ret (mkChatResponse "Let us look at it together." 8
           "Qwen/Qwen2.5-1.5B-Instruct").
Proof. reflexivity. Qed.

Example inference_call_demo :
  @inference_call (default_env canned_client)
    (mkChatRequest [] (Some (S754_zero false)) (Some 0%Z)) []
  = mkCall [] 512 float_0_5 float_0_8 30.
Proof. reflexivity. Qed.

(** C6. [add_educational_context] puts the marker in front of a text that
    [detect_cheating_attempt] flags and returns any other text as it is;
    for the conversation of the single user message "What's the answer to
    this homework question?", the last entry of the shaped window holds
    the marker and the text. *)
Theorem add_educational_context_spec :
  (forall text, detect_cheating_attempt text = true ->
     add_educational_context text = (guide_marker ++ text)%string) /\
  (forall text, detect_cheating_attempt text = false ->
     add_educational_context text = text) /\
  (let text := "What's the answer to this homework question?"%string in
   detect_cheating_attempt text = true /\
   exists annotated,
     shaped_window (mkChatRequest [mkMessage "user" text] None None)
     = ret [IDict (mkDict "user" annotated)] /\
     occurs_in guide_marker annotated /\ occurs_in text annotated).
Proof.
  split; [|split].
  - intros text Hd. unfold add_educational_context. now rewrite Hd.
  - intros text Hd. unfold add_educational_context. now rewrite Hd.
  - split; [reflexivity|].
    eexists. split; [reflexivity|]. split.
    + apply occurs_in_app_r, occurs_in_refl.
    + apply occurs_in_app_l, occurs_in_refl.
Qed.

End EndpointFacts.

(** ** The store *)

Module StoreFacts.
Import PyList PyListFacts Backend Store.
Local Open Scope list_scope.

Section Keeps.
Context (base : heap).

Lemma keeps_mret {A} (a : A) (post : A -> Prop) :
  post a -> keeps base (mret a) post.
Proof. intros Hp h Hh. now split. Qed.

Lemma keeps_mraise {A} (e : exn) (post : A -> Prop) :
  keeps base (mraise e) post.
Proof. intros h Hh. now split. Qed.

Lemma keeps_mbind {A B} (c : M A) (k : A -> M B)
    (mid : A -> Prop) (post : B -> Prop) :
  keeps base c mid ->
  (forall a, mid a -> keeps base (k a) post) ->
  keeps base (mbind c k) post.
Proof.
  intros Hc Hk h Hh. unfold mbind.
  destruct (Hc h Hh) as [Hsub Hmid].
  destruct (c h) as [h' [e|a]]; simpl in *.
  - now split.
  - now apply Hk.
Qed.

Lemma keeps_weaken {A} (c : M A) (post post' : A -> Prop) :
  keeps base c post -> (forall a, post a -> post' a) -> keeps base c post'.
Proof.
  intros Hc Hpp h Hh. destruct (Hc h Hh) as [Hsub Hp].
  split; [exact Hsub|]. destruct ((c h).2); [exact I|now apply Hpp].
Qed.

(** A new object lies outside [base]. *)
Lemma keeps_alloc (o : obj) :
  keeps base (alloc o) (fun l => base !! l = None).
Proof.
  intros h Hh. unfold alloc. simpl.
  assert (Hfresh : h !! fresh (dom h) = None).
  { apply not_elem_of_dom, is_fresh. }
  assert (Hbase : base !! fresh (dom h) = None).
  { eapply lookup_weaken_None; eassumption. }
  split; [|exact Hbase].
  now apply insert_subseteq_r.
Qed.

Lemma keeps_list_items (l : loc) :
  keeps base (list_items l) (fun _ => True).
Proof.
  intros h Hh. unfold list_items.
  destruct (h !! l) as [[items|m|d]|]; now split.
Qed.

Lemma keeps_load_role (l : loc) :
  keeps base (load_role l) (fun _ => True).
Proof.
  intros h Hh. unfold load_role.
  destruct (h !! l) as [[items|m|d]|]; now split.
Qed.

Lemma keeps_load_content (l : loc) :
  keeps base (load_content l) (fun _ => True).
Proof.
  intros h Hh. unfold load_content.
  destruct (h !! l) as [[items|m|d]|]; now split.
Qed.

(** Assigning into a list outside [base] leaves [base] as it is. *)
Lemma keeps_list_setitem (lst : loc) (i : Z) (x : loc) :
  base !! lst = None ->
  keeps base (list_setitem lst i x) (fun _ => True).
Proof.
  intros Hl. unfold list_setitem.
  eapply keeps_mbind; [apply keeps_list_items|]. intros items _.
  destruct (setitem items i x) as [items'|]; [|apply keeps_mraise].
  intros h Hh. simpl. split; [|exact I].
  now apply insert_subseteq_r.
Qed.

Lemma keeps_list_append (lst x : loc) :
  base !! lst = None ->
  keeps base (list_append lst x) (fun _ => True).
Proof.
  intros Hl. unfold list_append.
  eapply keeps_mbind; [apply keeps_list_items|]. intros items _.
  intros h Hh. simpl. split; [|exact I].
  now apply insert_subseteq_r.
Qed.

Lemma keeps_list_slice_from (lst : loc) (i : Z) :
  keeps base (list_slice_from lst i) (fun l => base !! l = None).
Proof.
  unfold list_slice_from.
  eapply keeps_mbind; [apply keeps_list_items|]. intros items _.
  apply keeps_alloc.
Qed.

Lemma keeps_list_copy (lst : loc) :
  keeps base (list_copy lst) (fun l => base !! l = None).
Proof.
  unfold list_copy.
  eapply keeps_mbind; [apply keeps_list_items|]. intros items _.
  apply keeps_alloc.
Qed.

(** [modified_messages] is a list that [base] does not hold. *)
Lemma keeps_chat_shape (msgs : loc) :
  keeps base (chat_shape msgs) (fun l => base !! l = None).
Proof.
  unfold chat_shape.
  eapply keeps_mbind; [apply keeps_list_items|]. intros items _.
  destruct items as [|l0 items0]; [apply keeps_mraise|].
  eapply keeps_mbind with (mid := fun _ => True).
  { destruct (getitem _ _); [now apply keeps_mret|apply keeps_mraise]. }
  intros last_message _.
  eapply keeps_mbind; [apply keeps_load_role|]. intros r _.
  destruct (negb _); [apply keeps_mraise|].
  eapply keeps_mbind; [apply keeps_load_content|]. intros c _.
  eapply keeps_mbind with (mid := fun _ => True).
  { destruct (_ <? _)%nat.
    - eapply keeps_weaken; [apply keeps_list_slice_from|done].
    - now apply keeps_mret. }
  intros recent _.
  eapply keeps_mbind; [apply keeps_list_copy|]. intros modified Hmod.
  eapply keeps_mbind; [apply keeps_alloc|]. intros d _.
  eapply keeps_mbind; [now apply keeps_list_setitem|]. intros _ _.
  now apply keeps_mret.
Qed.

Lemma keeps_format_loop (formatted : loc) (rest : list loc) :
  base !! formatted = None ->
  keeps base (Store.format_loop formatted rest) (fun _ => True).
Proof.
  intros Hf. induction rest as [|msg rest IH]; simpl.
  - now apply keeps_mret.
  - eapply keeps_mbind; [apply keeps_load_role|]. intros r _.
    eapply keeps_mbind; [apply keeps_load_content|]. intros c _.
    eapply keeps_mbind; [apply keeps_alloc|]. intros d _.
    eapply keeps_mbind; [now apply keeps_list_append|]. intros _ _.
    exact IH.
Qed.

Lemma keeps_format_messages (msgs : loc) :
  keeps base (Store.format_messages_for_huggingface msgs)
    (fun l => base !! l = None).
Proof.
  unfold Store.format_messages_for_huggingface.
  eapply keeps_mbind; [apply keeps_alloc|]. intros sys _.
  eapply keeps_mbind; [apply keeps_alloc|]. intros formatted Hf.
  eapply keeps_mbind; [apply keeps_list_items|]. intros items _.
  eapply keeps_mbind; [now apply keeps_format_loop|]. intros _ _.
  now apply keeps_mret.
Qed.

Lemma keeps_chat_prepare (msgs : loc) :
  keeps base (chat_prepare msgs) (fun l => base !! l = None).
Proof.
  unfold chat_prepare.
  eapply keeps_mbind; [apply keeps_chat_shape|]. intros modified _.
  apply keeps_format_messages.
Qed.

End Keeps.

Lemma view_item_weaken (h h' : heap) (l : loc) (x : item) :
  h ⊆ h' -> view_item h l = Some x -> view_item h' l = Some x.
Proof.
  intros Hsub. unfold view_item.
  destruct (h !! l) as [o|] eqn:E; [|discriminate].
  now rewrite (lookup_weaken _ _ _ _ E Hsub).
Qed.

Lemma view_items_weaken (h h' : heap) (ls : list loc) :
  h ⊆ h' ->
  forall xs, view_items h ls = Some xs -> view_items h' ls = Some xs.
Proof.
  intros Hsub. induction ls as [|l ls IH]; intros xs; simpl; [done|].
  destruct (view_item h l) as [x|] eqn:Ex; [|discriminate].
  destruct (view_items h ls) as [xs'|]; [|discriminate].
  intros [= <-].
  now rewrite (view_item_weaken _ _ _ _ Hsub Ex), (IH xs').
Qed.

Lemma view_list_weaken (h h' : heap) (l : loc) (xs : list item) :
  h ⊆ h' -> view_list h l = Some xs -> view_list h' l = Some xs.
Proof.
  intros Hsub. unfold view_list.
  destruct (h !! l) as [o|] eqn:E; [|discriminate].
  rewrite (lookup_weaken _ _ _ _ E Hsub).
  destruct o; try discriminate. now apply view_items_weaken.
Qed.

Lemma mbind_inr {A B} (c : M A) (k : A -> M B) (h h' : heap) (b : B) :
  mbind c k h = (h', inr b) ->
  exists h1 a, c h = (h1, inr a) /\ k a h1 = (h', inr b).
Proof.
  unfold mbind. destruct (c h) as [h1 [e|a]]; [discriminate|].
  intros Hk. now exists h1, a.
Qed.

Lemma list_setitem_inr (lst : loc) (i : Z) (x : loc) (h h' : heap) (u : unit) :
  list_setitem lst i x h = (h', inr u) ->
  exists items items',
    h !! lst = Some (OList items) /\ setitem items i x = Some items' /\
    h' = <[lst := OList items']> h.
Proof.
  unfold list_setitem. intros (h1 & items & Hitems & Hset)%mbind_inr.
  unfold list_items in Hitems.
  destruct (h !! lst) as [[its|m|d]|] eqn:E; try discriminate.
  injection Hitems as <- <-.
  destruct (setitem its i x) as [items'|] eqn:Es; [|discriminate].
  injection Hset as <-. now exists its, items'.
Qed.

(** When [chat_shape] returns, it returns a list of the store. *)
Lemma chat_shape_returns_list (msgs : loc) (h h' : heap) (l : loc) :
  chat_shape msgs h = (h', inr l) ->
  exists items, h' !! l = Some (OList items).
Proof.
  unfold chat_shape. intros (h1 & items & _ & Hrun)%mbind_inr.
  destruct items as [|l0 items0]; [discriminate|].
  apply mbind_inr in Hrun as (h2 & last_message & _ & Hrun).
  apply mbind_inr in Hrun as (h3 & r & _ & Hrun).
  destruct (negb _); [discriminate|].
  apply mbind_inr in Hrun as (h4 & c & _ & Hrun).
  apply mbind_inr in Hrun as (h5 & recent & _ & Hrun).
  apply mbind_inr in Hrun as (h6 & modified & _ & Hrun).
  apply mbind_inr in Hrun as (h7 & d & _ & Hrun).
  apply mbind_inr in Hrun as (h8 & u & Hset & Hrun).
  injection Hrun as <- <-.
  apply list_setitem_inr in Hset as (its & its' & _ & _ & ->).
  exists its'. apply lookup_insert_eq.
Qed.

(** *** The store-level handler computes what the value-level one does *)

Lemma mbind_run {A B} (c : M A) (k : A -> M B) (h h' : heap) (a : A) :
  c h = (h', inr a) -> mbind c k h = k a h'.
Proof. unfold mbind. now intros ->. Qed.

Lemma mbind_fail {A B} (c : M A) (k : A -> M B) (h h' : heap) (e : exn) :
  c h = (h', inl e) -> mbind c k h = (h', inl e).
Proof. unfold mbind. now intros ->. Qed.

Lemma list_items_run (h : heap) (l : loc) (items : list loc) :
  h !! l = Some (OList items) -> list_items l h = (h, inr items).
Proof. unfold list_items. now intros ->. Qed.

Lemma load_role_run (h : heap) (l : loc) (m : Message) :
  h !! l = Some (OMessage m) -> load_role l h = (h, inr (role m)).
Proof. unfold load_role. now intros ->. Qed.

Lemma load_content_run (h : heap) (l : loc) (m : Message) :
  h !! l = Some (OMessage m) -> load_content l h = (h, inr (content m)).
Proof. unfold load_content. now intros ->. Qed.

Lemma load_role_dict (h : heap) (l : loc) (d : Dict) :
  h !! l = Some (ODict d) -> load_role l h = (h, inl role_error).
Proof. unfold load_role. now intros ->. Qed.

Lemma fresh_lookup (h : heap) : h !! fresh (dom h) = None.
Proof. apply not_elem_of_dom, is_fresh. Qed.

Lemma fresh_lookup_base (base h : heap) :
  base ⊆ h -> base !! fresh (dom h) = None.
Proof. intros Hsub. eapply lookup_weaken_None; [apply fresh_lookup|exact Hsub]. Qed.

Lemma fresh_ne (h : heap) (l : loc) : is_Some (h !! l) -> l <> fresh (dom h).
Proof. intros [o Ho] ->. now rewrite fresh_lookup in Ho. Qed.

(** The statement that binds [recent_messages]. *)
Lemma recent_messages_run (h : heap) (msgs : loc) (items : list loc) :
  h !! msgs = Some (OList items) ->
  exists h1 recent,
    (if (3 <? length items)%nat then list_slice_from msgs (-3) else mret msgs) h
    = (h1, inr recent)
    /\ h ⊆ h1 /\ h1 !! recent = Some (OList (recent_messages items)).
Proof.
  intros Hm. unfold recent_messages.
  destruct (3 <? length items)%nat.
  - unfold list_slice_from. rewrite (mbind_run _ _ _ _ _ (list_items_run _ _ _ Hm)).
    eexists _, _. split; [reflexivity|]. split.
    + apply insert_subseteq, fresh_lookup.
    + apply lookup_insert_eq.
  - exists h, msgs. now split.
Qed.

(** On a conversation that ends with a user message, [chat_shape] returns
    a new list: the elements of the window, with a new dict in the place
    of the last. *)
Lemma chat_shape_run (h : heap) (msgs : loc) (its : list loc) (lm : loc)
    (m : Message) :
  h !! msgs = Some (OList (its ++ [lm])) ->
  h !! lm = Some (OMessage m) ->
  role m = "user"%string ->
  exists h' modified d,
    chat_shape msgs h = (h', inr modified) /\ h ⊆ h' /\
    h !! modified = None /\ h !! d = None /\ modified <> d /\
    h' !! modified = Some (OList (last_n 2 its ++ [d])) /\
    h' !! d =
      Some (ODict (mkDict "user" (add_educational_context (content m)))).
Proof.
  intros Hm Hlm Hr. unfold chat_shape.
  rewrite (mbind_run _ _ _ _ _ (list_items_run _ _ _ Hm)).
  destruct (its ++ [lm]) as [|l0 rest] eqn:E.
  { now destruct its. }
  rewrite <- E in *. clear E l0 rest.
  rewrite getitem_last.
  rewrite (mbind_run _ _ h h lm) by reflexivity.
  rewrite (mbind_run _ _ _ _ _ (load_role_run _ _ _ Hlm)).
  rewrite Hr, String.eqb_refl. change (negb true) with false. cbv iota.
  rewrite (mbind_run _ _ _ _ _ (load_content_run _ _ _ Hlm)).
  destruct (recent_messages_run h msgs _ Hm) as (h1 & recent & Hrun & Hsub1 & Hrec).
  rewrite (mbind_run _ _ _ _ _ Hrun).
  set (modified := fresh (dom h1)).
  set (h2 := <[modified := OList (recent_messages (its ++ [lm]))]> h1).
  assert (Hcopy : list_copy recent h1 = (h2, inr modified)).
  { unfold list_copy. now rewrite (mbind_run _ _ _ _ _ (list_items_run _ _ _ Hrec)). }
  rewrite (mbind_run _ _ _ _ _ Hcopy).
  set (dict := ODict (mkDict "user" (add_educational_context (content m)))).
  set (d := fresh (dom h2)).
  set (h3 := <[d := dict]> h2).
  rewrite (mbind_run _ _ h2 h3 d) by reflexivity.
  assert (Hmod2 : h2 !! modified = Some (OList (last_n 2 its ++ [lm]))).
  { unfold h2. rewrite lookup_insert_eq.
    now rewrite WindowFacts.recent_messages_snoc. }
  assert (Hne : modified <> d).
  { apply fresh_ne. now rewrite Hmod2. }
  assert (Hmod3 : h3 !! modified = Some (OList (last_n 2 its ++ [lm]))).
  { unfold h3. now rewrite lookup_insert_ne. }
  assert (Hset : list_setitem modified (-1) d h3
                 = (<[modified := OList (last_n 2 its ++ [d])]> h3, inr tt)).
  { unfold list_setitem.
    rewrite (mbind_run _ _ _ _ _ (list_items_run _ _ _ Hmod3)).
    now rewrite setitem_last. }
  rewrite (mbind_run _ _ _ _ _ Hset).
  assert (Hbase_mod : h !! modified = None) by now apply fresh_lookup_base.
  assert (Hsub2 : h ⊆ h2).
  { unfold h2. now apply insert_subseteq_r. }
  assert (Hbase_d : h !! d = None) by now apply fresh_lookup_base.
  eexists _, modified, d. split; [reflexivity|].
  split; [|split; [exact Hbase_mod|split; [exact Hbase_d|split; [exact Hne|split]]]].
  - apply insert_subseteq_r; [exact Hbase_mod|].
    unfold h3. now apply insert_subseteq_r.
  - apply lookup_insert_eq.
  - rewrite lookup_insert_ne by exact Hne. apply lookup_insert_eq.
Qed.

Lemma view_items_Forall2 (h : heap) (ls : list loc) (xs : list item) :
  view_items h ls = Some xs <->
  Forall2 (fun l x => view_item h l = Some x) ls xs.
Proof.
  revert xs. induction ls as [|l ls IH]; intros xs; simpl.
  - split.
    + intros [= <-]. constructor.
    + intros Hf. now inversion Hf.
  - split.
    + destruct (view_item h l) as [x|] eqn:Ex; [|discriminate].
      destruct (view_items h ls) as [xs'|]; [|discriminate].
      intros [= <-]. constructor; [exact Ex|]. now apply IH.
    + intros Hf. inversion Hf as [|? x ? xs' Hx Hrest]; subst.
      rewrite Hx. apply IH in Hrest. now rewrite Hrest.
Qed.

Lemma view_item_message (h : heap) (l : loc) (m : Message) :
  view_item h l = Some (IMessage m) <-> h !! l = Some (OMessage m).
Proof.
  unfold view_item. destruct (h !! l) as [[items|m'|d]|]; split;
    intros Heq; try discriminate; injection Heq as ->; reflexivity.
Qed.

(** A conversation that is not empty is held by a list that ends with the
    reference to its last message. *)
Lemma view_items_snoc_inv (h : heap) (ls : list loc) (earlier : list Message)
    (m : Message) :
  view_items h ls = Some (map IMessage (earlier ++ [m])) ->
  exists its lm,
    ls = its ++ [lm] /\ view_items h its = Some (map IMessage earlier) /\
    h !! lm = Some (OMessage m).
Proof.
  rewrite view_items_Forall2, map_app. simpl.
  intros (its & last & Hits & Hlast & ->)%Forall2_app_inv_r.
  inversion Hlast as [|lm ? rest ? Hlm Hnil]; subst.
  inversion Hnil; subst.
  exists its, lm. split; [reflexivity|]. split.
  - now apply view_items_Forall2.
  - now apply view_item_message.
Qed.

Lemma view_items_last_n (h : heap) (n : nat) (ls : list loc) (xs : list item) :
  view_items h ls = Some xs ->
  view_items h (last_n n ls) = Some (last_n n xs).
Proof.
  rewrite !view_items_Forall2, !last_n_drop. intros Hf.
  rewrite (Forall2_length _ _ _ Hf). now apply Forall2_drop.
Qed.

Lemma view_items_app (h : heap) (ls1 ls2 : list loc) (xs1 xs2 : list item) :
  view_items h ls1 = Some xs1 -> view_items h ls2 = Some xs2 ->
  view_items h (ls1 ++ ls2) = Some (xs1 ++ xs2).
Proof. rewrite !view_items_Forall2. apply Forall2_app. Qed.

(** X19. The store-level [chat_shape] and the value-level [shaped_window]
    raise the same exception or return the same window. *)
Theorem chat_shape_refines (h : heap) (msgs : loc) (request : ChatRequest) :
  view_list h msgs = Some (map IMessage (messages request)) ->
  match chat_shape msgs h with
  | (h', inr l) =>
      exists window,
        shaped_window request = ret window /\ view_list h' l = Some window
  | (_, inl e) => shaped_window request = raise e
  end.
Proof.
  unfold view_list.
  destruct (h !! msgs) as [[items|?|?]|] eqn:Hm; try discriminate.
  intros Hview.
  destruct (EndpointFacts.snoc_cases (messages request))
    as [Hconv|(earlier & m & Hconv)]; rewrite Hconv in Hview.
  - destruct items as [|l items]; [|simpl in Hview; repeat case_match; discriminate].
    unfold chat_shape.
    rewrite (mbind_run _ _ _ _ _ (list_items_run _ _ _ Hm)). simpl.
    now apply ShapingFacts.shaped_window_nil.
  - apply view_items_snoc_inv in Hview as (its & lm & -> & Hits & Hlm).
    rewrite (ShapingFacts.shaped_window_snoc _ _ _ Hconv).
    destruct (String.eqb_spec (role m) "user") as [Hr|Hr].
    + destruct (chat_shape_run h msgs its lm m Hm Hlm Hr)
        as (h' & modified & d & -> & Hsub & _ & _ & _ & Hmod & Hd).
      eexists. split; [reflexivity|].
      unfold view_list. rewrite Hmod.
      apply view_items_app.
      * rewrite <- last_n_map. apply view_items_last_n.
        now apply (view_items_weaken h).
      * simpl. unfold view_item. now rewrite Hd.
    + unfold chat_shape.
      rewrite (mbind_run _ _ _ _ _ (list_items_run _ _ _ Hm)).
      destruct (its ++ [lm]) as [|l0 rest] eqn:E.
      { now destruct its. }
      rewrite <- E, getitem_last.
      rewrite (mbind_run _ _ h h lm) by reflexivity.
      rewrite (mbind_run _ _ _ _ _ (load_role_run _ _ _ Hlm)).
      apply String.eqb_neq in Hr. rewrite Hr. reflexivity.
Qed.

(** One turn of the formatting loop leaves the messages and dicts that
    were there as they are. *)
Lemma format_step_lookup (h : heap) (formatted x : loc) (o o' : obj)
    (fi fi' : list loc) :
  h !! formatted = Some (OList fi) ->
  h !! x = Some o -> (forall items, o <> OList items) ->
  (<[formatted := OList fi']> (<[fresh (dom h) := o']> h)) !! x = Some o.
Proof.
  intros Hf Hx Ho.
  rewrite lookup_insert_ne.
  - rewrite lookup_insert_ne; [exact Hx|].
    apply not_eq_sym, fresh_ne. now rewrite Hx.
  - intros ->. rewrite Hf in Hx. injection Hx as <-. now apply (Ho fi).
Qed.

(** In the store too the loop stops at the first dict. *)
Lemma format_loop_store_dict (formatted d : loc) (dd : Dict) (rest : list loc)
    (ls : list loc) :
  forall (h : heap) (fi : list loc),
    Forall (fun l => exists m, h !! l = Some (OMessage m)) ls ->
    h !! d = Some (ODict dd) ->
    h !! formatted = Some (OList fi) ->
    (Store.format_loop formatted (ls ++ d :: rest) h).2 = inl role_error.
Proof.
  induction ls as [|l ls IH]; intros h fi Hls Hd Hf; simpl.
  - now rewrite (mbind_fail _ _ _ _ _ (load_role_dict _ _ _ Hd)).
  - inversion Hls as [|? ? [m Hl] Hls']; subst.
    rewrite (mbind_run _ _ _ _ _ (load_role_run _ _ _ Hl)).
    rewrite (mbind_run _ _ _ _ _ (load_content_run _ _ _ Hl)).
    set (o' := ODict (mkDict (role m) (content m))).
    set (h1 := <[fresh (dom h) := o']> h).
    rewrite (mbind_run _ _ h h1 (fresh (dom h))) by reflexivity.
    assert (Hf1 : h1 !! formatted = Some (OList fi)).
    { unfold h1. rewrite lookup_insert_ne; [exact Hf|].
      apply not_eq_sym, fresh_ne. now rewrite Hf. }
    assert (Happ : list_append formatted (fresh (dom h)) h1
                   = (<[formatted := OList (fi ++ [fresh (dom h)])]> h1, inr tt)).
    { unfold list_append.
      now rewrite (mbind_run _ _ _ _ _ (list_items_run _ _ _ Hf1)). }
    rewrite (mbind_run _ _ _ _ _ Happ).
    apply (IH _ (fi ++ [fresh (dom h)])).
    + eapply Forall_impl; [exact Hls'|]. intros x [mx Hx]. exists mx.
      now apply (format_step_lookup h formatted x _ o' fi).
    + now apply (format_step_lookup h formatted d _ o' fi).
    + apply lookup_insert_eq.
Qed.

Lemma view_items_messages (h h' : heap) (ls : list loc) (ms : list Message) :
  view_items h ls = Some (map IMessage ms) -> h ⊆ h' ->
  Forall (fun l => exists m, h' !! l = Some (OMessage m)) ls.
Proof.
  intros Hview Hsub. revert ms Hview.
  induction ls as [|l ls IH]; intros ms Hview; constructor.
  - apply view_items_Forall2 in Hview.
    destruct ms as [|m ms]; inversion Hview as [|? ? ? ? Hl _]; subst.
    exists m. apply view_item_message in Hl.
    exact (lookup_weaken _ _ _ _ Hl Hsub).
  - apply view_items_Forall2 in Hview.
    destruct ms as [|m ms]; inversion Hview as [|? ? ? ? _ Hrest]; subst.
    apply (IH ms). now apply view_items_Forall2.
Qed.

(** On a stored conversation that ends with a user message, [chat] raises
    [AttributeError] while it formats the payload. *)
Theorem chat_prepare_fails (h : heap) (msgs : loc) (earlier : list Message)
    (m : Message) :
  view_list h msgs = Some (map IMessage (earlier ++ [m])) ->
  role m = "user"%string ->
  (chat_prepare msgs h).2 = inl role_error.
Proof.
  unfold view_list.
  destruct (h !! msgs) as [[items|?|?]|] eqn:Hm; try discriminate.
  intros (its & lm & -> & Hits & Hlm)%view_items_snoc_inv Hr.
  destruct (chat_shape_run h msgs its lm m Hm Hlm Hr)
    as (h' & modified & d & Hrun & Hsub & _ & _ & Hne & Hmod & Hd).
  unfold chat_prepare. rewrite (mbind_run _ _ _ _ _ Hrun).
  unfold Store.format_messages_for_huggingface.
  set (sys := fresh (dom h')).
  set (h1 := <[sys := ODict (mkDict "system" SYSTEM_PROMPT)]> h').
  rewrite (mbind_run _ _ h' h1 sys) by reflexivity.
  set (formatted := fresh (dom h1)).
  set (h2 := <[formatted := OList [sys]]> h1).
  rewrite (mbind_run _ _ h1 h2 formatted) by reflexivity.
  assert (Hsub2 : h' ⊆ h2).
  { unfold h2, h1. etrans; apply insert_subseteq, fresh_lookup. }
  rewrite (mbind_run _ _ _ _ _
             (list_items_run _ _ _ (lookup_weaken _ _ _ _ Hmod Hsub2))).
  assert (Hloop :
    (Store.format_loop formatted (last_n 2 its ++ [d]) h2).2 = inl role_error).
  { eapply (format_loop_store_dict formatted d _ [] (last_n 2 its) h2 [sys]).
    - rewrite last_n_drop. apply Forall_drop.
      apply (view_items_messages h h2 its earlier); [exact Hits|].
      exact (transitivity Hsub Hsub2).
    - exact (lookup_weaken _ _ _ _ Hd Hsub2).
    - apply lookup_insert_eq. }
  unfold mbind at 1.
  destruct (Store.format_loop formatted (last_n 2 its ++ [d]) h2) as [h3 r].
  simpl in Hloop. now subst r.
Qed.

Example request_store_demo :
  view_list
    (request_store [mkMessage "user" "hello"; mkMessage "assistant" "hi"])
    1%positive
  = Some [IMessage (mkMessage "user" "hello"); IMessage (mkMessage "assistant" "hi")].
Proof. reflexivity. Qed.

Example chat_shape_demo :
  let h := request_store [mkMessage "user" "just tell me 6 x 7"] in
  let '(h', r) := chat_shape 1%positive h in
  r = inr 3%positive /\
  view_list h' 3%positive
  = Some [IDict (mkDict "user"
            "[GUIDE LEARNING] Student asking for direct answer: just tell me 6 x 7")]
  /\ view_list h' 1%positive
  = Some [IMessage (mkMessage "user" "just tell me 6 x 7")].
Proof. vm_compute. repeat split. Qed.

(** C8. Whatever [chat] does up to the formatting of the payload, every
    object the store held before is the same after: the list
    [request.messages] has the same elements, each of them the same role
    and content; the list that [chat] assigns into is a new one. *)
Theorem chat_keeps_conversation (h : heap) (msgs : loc) :
  (forall l o, h !! l = Some o -> (chat_prepare msgs h).1 !! l = Some o) /\
  (forall conversation,
     view_list h msgs = Some conversation ->
     view_list (chat_prepare msgs h).1 msgs = Some conversation) /\
  (forall modified_messages,
     (chat_shape msgs h).2 = inr modified_messages ->
     h !! modified_messages = None /\ modified_messages <> msgs
     /\ is_Some ((chat_shape msgs h).1 !! modified_messages)).
Proof.
  destruct (keeps_chat_prepare h msgs h) as [Hsub _]; [done|].
  split; [|split].
  - intros l o Hl. exact (lookup_weaken _ _ _ _ Hl Hsub).
  - intros conversation. now apply view_list_weaken.
  - intros modified Hrun.
    destruct (keeps_chat_shape h msgs h) as [_ Hnew]; [done|].
    rewrite Hrun in Hnew. split; [exact Hnew|]. split.
    + intros ->. revert Hrun. unfold chat_shape, mbind, list_items.
      rewrite Hnew. discriminate.
    + destruct (chat_shape msgs h) as [h' r] eqn:E. simpl in *. subst r.
      apply chat_shape_returns_list in E as [items Hitems].
      now exists (OList items).
Qed.

End StoreFacts.

(** * Further properties *)

(** ** Lowercasing, searching and stripping *)

Module TextFacts.
Import PyStr PyStrFacts.

Lemma lower_char_idem (c : ascii) : lower_char (lower_char c) = lower_char c.
Proof. destruct c as [[] [] [] [] [] [] [] []]; reflexivity. Qed.

Lemma lower_idem (s : string) : lower (lower s) = lower s.
Proof.
  induction s as [|c s IH]; simpl; [reflexivity|].
  now rewrite lower_char_idem, IH.
Qed.

Lemma length_append (a b : string) :
  String.length (a ++ b) = String.length a + String.length b.
Proof. induction a as [|c a IH]; simpl; [reflexivity|now rewrite IH]. Qed.

Lemma occurs_in_length (k s : string) :
  occurs_in k s -> String.length k <= String.length s.
Proof. intros (pre & post & ->). rewrite !length_append. lia. Qed.

Lemma occurs_in_trans (k t u : string) :
  occurs_in k t -> occurs_in t u -> occurs_in k u.
Proof.
  intros Hk (pre & post & ->).
  now apply occurs_in_app_l, occurs_in_app_r.
Qed.

Lemma occurs_in_lower (t u : string) :
  occurs_in t u -> occurs_in (lower t) (lower u).
Proof.
  intros (pre & post & ->). exists (lower pre), (lower post).
  now rewrite !lower_app.
Qed.

Lemma lstrip_decompose (s : string) :
  exists pre,
    s = pre ++ lstrip s /\ all_space pre = true /\
    starts_space (lstrip s) = false.
Proof.
  induction s as [|c s (pre & Hs & Hpre & Hstart)]; simpl.
  - now exists EmptyString.
  - destruct (is_space c) eqn:Hc.
    + exists (String c pre). simpl. rewrite Hc, Hpre, <- Hs. now split.
    + exists EmptyString. simpl. now split.
Qed.

Lemma rstrip_decompose (s : string) :
  exists post,
    s = rstrip s ++ post /\ all_space post = true /\
    ends_space (rstrip s) = false.
Proof.
  induction s as [|c s (post & Hs & Hpost & Hend)]; simpl.
  - now exists EmptyString.
  - destruct (rstrip s) as [|a r] eqn:Hr.
    + simpl in Hs. subst post.
      destruct (is_space c) eqn:Hc.
      * exists (String c s). simpl. rewrite Hc, Hpost. now split.
      * exists s. simpl. now split.
    + exists post. simpl in *. rewrite <- Hs. now split.
Qed.

Lemma rstrip_starts (s : string) :
  starts_space s = false -> starts_space (rstrip s) = false.
Proof.
  destruct s as [|c s]; simpl; [reflexivity|]. intros Hc.
  destruct (rstrip s); simpl; now rewrite Hc.
Qed.

(** [s.strip()] is [s] without a run of whitespace at each end, and has
    whitespace at neither end. *)
Lemma strip_decompose (s : string) :
  exists pre post,
    s = pre ++ strip s ++ post /\
    all_space pre = true /\ all_space post = true /\
    starts_space (strip s) = false /\ ends_space (strip s) = false.
Proof.
  unfold strip.
  destruct (lstrip_decompose s) as (pre & Hs & Hpre & Hstart).
  destruct (rstrip_decompose (lstrip s)) as (post & Hl & Hpost & Hend).
  exists pre, post. split; [now rewrite <- Hl|].
  split; [exact Hpre|]. split; [exact Hpost|]. split; [|exact Hend].
  now apply rstrip_starts.
Qed.

Lemma lstrip_fixed (s : string) : starts_space s = false -> lstrip s = s.
Proof. destruct s as [|c s]; simpl; [reflexivity|]. now intros ->. Qed.

Lemma rstrip_fixed (s : string) : ends_space s = false -> rstrip s = s.
Proof.
  induction s as [|c s IH]; simpl; [reflexivity|].
  destruct s as [|a s].
  - simpl. now intros ->.
  - intros Hend. rewrite (IH Hend). reflexivity.
Qed.

Lemma strip_idem (s : string) : strip (strip s) = strip s.
Proof.
  destruct (strip_decompose s) as (_ & _ & _ & _ & _ & Hstart & Hend).
  unfold strip at 1. now rewrite (lstrip_fixed _ Hstart), (rstrip_fixed _ Hend).
Qed.

End TextFacts.

(** ** The detector and the annotation *)

Module DetectFacts.
Import PyStr PyStrFacts TextFacts Backend HelperFacts.

Lemma keywords_length (k : string) : In k keywords -> 10 <= String.length k.
Proof.
  unfold keywords. simpl.
  intros [<-|[<-|[<-|[<-|[<-|[]]]]]]; simpl; lia.
Qed.

Lemma detect_marker_prefix (text : string) :
  detect_cheating_attempt text = true ->
  detect_cheating_attempt (guide_marker ++ text) = true.
Proof.
  intros (k & Hk & Hc)%detect_cheating_attempt_true.
  apply detect_cheating_attempt_true. exists k. split; [exact Hk|].
  rewrite lower_app. now apply occurs_in_app_l.
Qed.

(** X1. Matching is by substring: a text that contains a flagged text is
    flagged too, whatever surrounds it. *)
Theorem detect_contained (text longer : string) :
  occurs_in text longer ->
  detect_cheating_attempt text = true ->
  detect_cheating_attempt longer = true.
Proof.
  intros Hocc (k & Hk & Hc)%detect_cheating_attempt_true.
  apply detect_cheating_attempt_true. exists k. split; [exact Hk|].
  eapply occurs_in_trans; [exact Hc|]. now apply occurs_in_lower.
Qed.

Lemma detect_contained_witness :
  occurs_in "Answer This" "I'll Answer This myself" /\
  detect_cheating_attempt "Answer This" = true /\
  detect_cheating_attempt "I'll Answer This myself" = true.
Proof.
  assert (Hocc : occurs_in "Answer This" "I'll Answer This myself").
  { exists "I'll ", " myself". reflexivity. }
  split; [exact Hocc|]. split; [reflexivity|].
  apply (detect_contained "Answer This" "I'll Answer This myself");
    [exact Hocc|reflexivity].
Defined.

(** X2. No text of fewer than 10 characters is flagged, the empty text
    included. *)
Theorem detect_short_text (text : string) :
  String.length text < 10 -> detect_cheating_attempt text = false.
Proof.
  intros Hlen.
  destruct (detect_cheating_attempt text) eqn:Hd; [|reflexivity].
  apply detect_cheating_attempt_true in Hd as (k & Hk & Hc).
  apply keywords_length in Hk. apply occurs_in_length in Hc.
  rewrite lower_length in Hc. lia.
Qed.

Lemma detect_short_text_witness :
  String.length "solve it" < 10 /\ detect_cheating_attempt "solve it" = false.
Proof.
  split; [simpl; lia|].
  apply (detect_short_text "solve it"). simpl. lia.
Defined.

(** X3. The answer does not depend on case: a text and its lowercase form
    are classified alike. *)
Theorem detect_lower (text : string) :
  detect_cheating_attempt (lower text) = detect_cheating_attempt text.
Proof. unfold detect_cheating_attempt. now rewrite lower_idem. Qed.

(** X4. The annotation returns its argument exactly when the detector does
    not flag it; a flagged text grows by the length of the marker. *)
Theorem add_educational_context_fixed (text : string) :
  (add_educational_context text = text <->
   detect_cheating_attempt text = false) /\
  (detect_cheating_attempt text = true ->
   String.length (add_educational_context text) = 51 + String.length text).
Proof.
  unfold add_educational_context.
  destruct (detect_cheating_attempt text); split.
  - split; [|discriminate]. intros Heq.
    apply (f_equal String.length) in Heq.
    rewrite length_append in Heq. simpl in Heq. lia.
  - intros _. now rewrite length_append.
  - now split.
  - discriminate.
Qed.

(** X5. Annotating is not idempotent: the annotation of a flagged text is
    flagged again, so annotating it once more puts a second marker in
    front. *)
Theorem add_educational_context_twice (text : string) :
  detect_cheating_attempt text = true ->
  add_educational_context (add_educational_context text)
  = guide_marker ++ guide_marker ++ text.
Proof.
  intros Hd. unfold add_educational_context.
  now rewrite Hd, (detect_marker_prefix _ Hd).
Qed.

Lemma add_educational_context_twice_witness :
  detect_cheating_attempt "just tell me 6 x 7" = true /\
  add_educational_context (add_educational_context "just tell me 6 x 7")
  = guide_marker ++ guide_marker ++ "just tell me 6 x 7".
Proof.
  split; [reflexivity|].
  apply (add_educational_context_twice "just tell me 6 x 7"). reflexivity.
Defined.

End DetectFacts.

(** ** Indexing and the window *)

Module IndexFacts.
Import PyList PyListFacts Backend WindowFacts.
Local Open Scope list_scope.

Section Index.
Context {A : Type}.
Implicit Types (l : list A) (x : A) (i : Z).

Lemma norm_index_range l i (j : nat) :
  norm_index l i = Some j ->
  j < length l /\
  Z.of_nat j = (if (i <? 0)%Z then i + Z.of_nat (length l) else i)%Z.
Proof.
  unfold norm_index.
  set (k := (if (i <? 0)%Z then (i + Z.of_nat (length l))%Z else i)).
  destruct (Z.leb_spec 0 k); [|discriminate].
  destruct (Z.ltb_spec k (Z.of_nat (length l))); [|discriminate].
  simpl. intros [= <-]. lia.
Qed.

Lemma norm_index_length l l' i :
  length l = length l' -> norm_index l i = norm_index l' i.
Proof. unfold norm_index. now intros ->. Qed.

(** X6. An index is refused exactly when it lies outside
    [-len(l), len(l) - 1]; an accepted assignment [l[i] = x] keeps the
    length, and reading [l[i]] afterwards gives [x]. *)
Theorem setitem_getitem l i x :
  (getitem l i = None <->
   (i < - Z.of_nat (length l) \/ Z.of_nat (length l) <= i)%Z) /\
  (setitem l i x = None <-> getitem l i = None) /\
  (forall l', setitem l i x = Some l' ->
     length l' = length l /\ getitem l' i = Some x).
Proof.
  assert (Hnone : norm_index l i = None <->
                  (i < - Z.of_nat (length l) \/ Z.of_nat (length l) <= i)%Z).
  { unfold norm_index.
    destruct (Z.ltb_spec i 0) as [Hi|Hi].
    - destruct (Z.leb_spec 0 (i + Z.of_nat (length l))) as [Hle|Hle];
        destruct (Z.ltb_spec (i + Z.of_nat (length l)) (Z.of_nat (length l)))
          as [Hlt|Hlt]; simpl; split; intros Hn;
        try discriminate; try reflexivity; lia.
    - destruct (Z.leb_spec 0 i) as [Hle|Hle];
        destruct (Z.ltb_spec i (Z.of_nat (length l))) as [Hlt|Hlt];
        simpl; split; intros Hn; try discriminate; try reflexivity; lia. }
  assert (Hget : getitem l i = None <-> norm_index l i = None).
  { unfold getitem. destruct (norm_index l i) as [j|] eqn:Ej; [|tauto].
    apply norm_index_range in Ej as [Hj _].
    split; [|discriminate]. intros Hn. apply nth_error_None in Hn. lia. }
  split; [now rewrite Hget|]. split.
  - rewrite Hget. unfold setitem. destruct (norm_index l i); split;
      intros; try discriminate; reflexivity.
  - intros l'. unfold setitem.
    destruct (norm_index l i) as [j|] eqn:Ej; [|discriminate].
    intros [= <-].
    destruct (norm_index_range _ _ _ Ej) as [Hj _].
    assert (Hlen : length (firstn j l ++ x :: skipn (S j) l) = length l).
    { rewrite length_app, length_firstn. simpl. rewrite length_skipn. lia. }
    split; [exact Hlen|].
    unfold getitem. rewrite (norm_index_length _ l i Hlen), Ej.
    rewrite nth_error_app2 by (rewrite length_firstn; lia).
    rewrite length_firstn.
    replace (j - Nat.min j (length l)) with 0 by lia. reflexivity.
Qed.

(** X7. The window ends where the conversation ends: its last element is
    the last element of the conversation, so that the message [chat]
    validates and annotates is the one it replaces in the copy; taking the
    window of a window changes nothing. *)
Theorem recent_messages_last (msgs : list A) :
  getitem (recent_messages msgs) (-1) = getitem msgs (-1) /\
  recent_messages (recent_messages msgs) = recent_messages msgs.
Proof.
  split.
  - destruct (EndpointFacts.snoc_cases msgs) as [->|(earlier & x & ->)].
    + reflexivity.
    + now rewrite recent_messages_snoc, !getitem_last.
  - apply recent_messages_short. rewrite recent_messages_length. lia.
Qed.

End Index.

End IndexFacts.

(** ** The payload, the call and the extraction *)

Module PayloadFacts.
Import PyStr PyStrFacts TextFacts PyList PyListFacts Backend HelperFacts
  WindowFacts ShapingFacts.
Local Open Scope list_scope.

(** A list of items is made of [Message] objects only, or has a first
    dict. *)
Lemma items_cases (msgs : list item) :
  (exists ms, msgs = map IMessage ms) \/
  (exists ms d rest, msgs = map IMessage ms ++ IDict d :: rest).
Proof.
  induction msgs as [|[m|d] msgs IH].
  - left. now exists [].
  - destruct IH as [(ms & ->)|(ms & d & rest & ->)].
    + left. now exists (m :: ms).
    + right. now exists (m :: ms), d, rest.
  - right. now exists [], d, msgs.
Qed.

(** X8. [format_messages_for_huggingface] returns a payload exactly when
    no element of its argument is a dict; when it raises, the exception is
    the [AttributeError] for [role], never the one for [content]. *)
Theorem format_messages_returns_iff (msgs : list item) :
  ((exists payload, format_messages_for_huggingface msgs = ret payload) <->
   (forall d, ~ In (IDict d) msgs)) /\
  (forall e, format_messages_for_huggingface msgs = raise e -> e = role_error).
Proof.
  destruct (items_cases msgs) as [(ms & ->)|(ms & d & rest & ->)].
  - rewrite format_messages_of_messages. split.
    + split; [|intros _; now eexists].
      intros _ d (m & Hm & _)%in_map_iff. discriminate.
    + discriminate.
  - unfold format_messages_for_huggingface. rewrite format_loop_dict. split.
    + split; [intros [payload Hp]; discriminate|].
      intros Hno. destruct (Hno d). apply in_elt.
    + now intros e [= <-].
Qed.

(** X9. Given [Message] objects only,
    [format_messages_for_huggingface] returns one entry more than it was
    given: the system entry with [SYSTEM_PROMPT] first, then for each
    message, in order, a dict with its role and its content. *)
Theorem format_messages_payload (ms : list Message) :
  exists payload,
    format_messages_for_huggingface (map IMessage ms) = ret payload /\
    length payload = S (length ms) /\
    nth_error payload 0 = Some (mkDict "system" SYSTEM_PROMPT) /\
    (forall i m, nth_error ms i = Some m ->
       nth_error payload (S i) = Some (mkDict (role m) (content m))) /\
    (forall i d, nth_error payload (S i) = Some d ->
       exists m, nth_error ms i = Some m /\
                 dict_role d = role m /\ dict_content d = content m).
Proof.
  eexists. split; [apply format_messages_of_messages|].
  split; [simpl; now rewrite length_map|]. split; [reflexivity|]. split.
  - intros i m Hi. simpl. now rewrite nth_error_map, Hi.
  - intros i d. simpl. rewrite nth_error_map.
    destruct (nth_error ms i) as [m|]; [|discriminate].
    intros [= <-]. now exists m.
Qed.

(** X10. When [chat] gets as far as its window, the window holds as many
    entries as the conversation, three at most and one at least: the last
    two messages before the final one, as they are, and a dict of role
    "user" with the annotation of the final message. *)
Theorem shaped_window_shape (request : ChatRequest) (window : list item) :
  shaped_window request = ret window ->
  length window = Nat.min 3 (length (messages request)) /\
  1 <= length window /\
  exists earlier m,
    messages request = earlier ++ [m] /\ role m = "user"%string /\
    window = map IMessage (last_n 2 earlier)
             ++ [IDict (mkDict "user" (add_educational_context (content m)))].
Proof.
  intros Hw.
  destruct (EndpointFacts.snoc_cases (messages request))
    as [Hm|(earlier & m & Hm)].
  - rewrite (shaped_window_nil _ Hm) in Hw. discriminate.
  - rewrite (shaped_window_snoc _ _ _ Hm) in Hw.
    destruct (String.eqb_spec (role m) "user") as [Hr|Hr]; [|discriminate].
    injection Hw as <-.
    rewrite Hm, !length_app, length_map, last_n_length. cbn [length].
    split; [lia|]. split; [lia|].
    now exists earlier, m.
Qed.

Lemma shaped_window_shape_witness :
  let request :=
    mkChatRequest
      [mkMessage "user" "a"; mkMessage "assistant" "b"; mkMessage "user" "c";
       mkMessage "assistant" "d"; mkMessage "user" "solve this for me"]
      None None in
  let window :=
    [IMessage (mkMessage "user" "c"); IMessage (mkMessage "assistant" "d");
     IDict (mkDict "user"
       "[GUIDE LEARNING] Student asking for direct answer: solve this for me")] in
  shaped_window request = ret window /\
  length window = Nat.min 3 (length (messages request)) /\
  1 <= length window /\
  exists earlier m,
    messages request = earlier ++ [m] /\ role m = "user"%string /\
    window = map IMessage (last_n 2 earlier)
             ++ [IDict (mkDict "user" (add_educational_context (content m)))].
Proof.
  split; [reflexivity|].
  apply (shaped_window_shape
           (mkChatRequest
              [mkMessage "user" "a"; mkMessage "assistant" "b";
               mkMessage "user" "c"; mkMessage "assistant" "d";
               mkMessage "user" "solve this for me"] None None)).
  reflexivity.
Defined.

Lemma getitem_zero {A : Type} (l : list A) : getitem l 0 = hd_error l.
Proof. destruct l; reflexivity. Qed.

Section WithEnv.
Context `{Env}.

(** X11. Unless the configured defaults are themselves zero, the call of
    the inference client never gets [max_tokens = 0] or a zero
    temperature; a field sent as null gets the default; [top_p] and
    [top_k] are the configured ones whatever the request holds. *)
Theorem inference_call_never_zero (request : ChatRequest) (formatted : list Dict) :
  MAX_TOKENS <> 0%Z ->
  float_truthy TEMPERATURE = true ->
  arg_max_tokens (inference_call request formatted) <> 0%Z /\
  float_truthy (arg_temperature (inference_call request formatted)) = true /\
  (max_tokens request = None ->
     arg_max_tokens (inference_call request formatted) = MAX_TOKENS) /\
  (temperature request = None ->
     arg_temperature (inference_call request formatted) = TEMPERATURE) /\
  arg_top_p (inference_call request formatted) = TOP_P /\
  arg_top_k (inference_call request formatted) = TOP_K.
Proof.
  intros Hmax Htemp. unfold inference_call. simpl. repeat split.
  - unfold int_or. destruct (max_tokens request) as [n|]; [|exact Hmax].
    now destruct (Z.eqb_spec n 0).
  - unfold float_or. destruct (temperature request) as [f|]; [|exact Htemp].
    now destruct (float_truthy f) eqn:Hf.
  - now intros ->.
  - now intros ->.
Qed.

(** X12. [chat]'s extraction returns exactly when the answer has a first
    choice with a content and a token count. The response is then that
    content without the whitespace around it, with whitespace at neither
    end; [tokens_used] is the count and [model] the configured name. An
    answer without choices gives [IndexError]. *)
Theorem extract_returns (raw : ChatCompletionOutput) :
  ((exists r, extract raw = ret r) <->
   (exists s rest n,
      choices raw = Some s :: rest /\ completion_tokens raw = Some n)) /\
  (forall r, extract raw = ret r ->
     exists s rest pre post,
       choices raw = Some s :: rest /\
       s = (pre ++ response r ++ post)%string /\
       all_space pre = true /\ all_space post = true /\
       starts_space (response r) = false /\ ends_space (response r) = false /\
       completion_tokens raw = Some (tokens_used r) /\
       model r = MODEL_NAME) /\
  (choices raw = [] ->
     extract raw = raise (IndexError "list index out of range")).
Proof.
  unfold extract. rewrite getitem_zero.
  destruct (choices raw) as [|[s|] rest]; simpl.
  - split; [|split; [discriminate|reflexivity]].
    split; [intros [r Hr]; discriminate|intros (s & rest & n & Hc & _); discriminate].
  - destruct (completion_tokens raw) as [n|]; simpl.
    + split; [|split; [|discriminate]].
      * split; [intros _; now exists s, rest, n|intros _; now eexists].
      * intros r [= <-]. simpl.
        destruct (strip_decompose s) as (pre & post & Hs & Hpre & Hpost & Hst & Hen).
        exists s, rest, pre, post. now repeat split.
    + split; [|split; discriminate].
      split; [intros [r Hr]; discriminate|].
      intros (s' & rest' & n & _ & Hn). discriminate.
  - split; [|split; discriminate].
    split; [intros [r Hr]; discriminate|].
    intros (s' & rest' & n & Hc & _). discriminate.
Qed.

End WithEnv.

Lemma inference_call_never_zero_witness :
  let request := mkChatRequest [] (Some (S754_zero true)) (Some 0%Z) in
  @MAX_TOKENS (default_env canned_client) <> 0%Z /\
  float_truthy (@TEMPERATURE (default_env canned_client)) = true /\
  arg_max_tokens (@inference_call (default_env canned_client) request []) <> 0%Z.
Proof.
  split; [discriminate|]. split; [reflexivity|].
  apply (@inference_call_never_zero (default_env canned_client)
           (mkChatRequest [] (Some (S754_zero true)) (Some 0%Z)) []);
    [discriminate|reflexivity].
Defined.

End PayloadFacts.

(** ** What the two handlers answer *)

Module ReplyFacts.
Import PyStr PyStrFacts PyList PyListFacts Backend HelperFacts WindowFacts
  ShapingFacts.
Local Open Scope list_scope.

Section WithEnv.
Context `{Env}.

(** X13. [analyze_question] returns a body exactly when the list of
    messages is not empty; it never answers with status 400, on the empty
    list it answers 500. *)
Theorem analyze_question_returns_iff (request : ChatRequest) :
  ((exists body, analyze_question request = Returned body) <->
   messages request <> []) /\
  (forall detail, analyze_question request <> Failed 400 detail) /\
  (messages request = [] ->
   exists detail, analyze_question request = Failed 500 detail).
Proof.
  destruct (EndpointFacts.snoc_cases (messages request))
    as [Hm|(earlier & m & Hm)].
  - assert (Hfail : analyze_question request
                    = Failed 500 (HTTPException_str 400 "No messages provided")).
    { unfold analyze_question, analyze_question_body. now rewrite Hm. }
    rewrite Hfail. split; [|split].
    + split; [intros [body Hb]; discriminate|now intros Hne].
    + discriminate.
    + intros _. now eexists.
  - rewrite (EndpointFacts.analyze_question_snoc _ _ _ Hm). split; [|split].
    + split; [|intros _; now eexists].
      intros _ Hnil. rewrite Hnil in Hm. now destruct earlier.
    + discriminate.
    + intros Hnil. rewrite Hnil in Hm. now destruct earlier.
Qed.

(** X14. The answer of [analyze_question] depends on the content of the
    last message alone: not on its role, which unlike [chat] it does not
    check, nor on the earlier messages or the sampling fields. *)
Theorem analyze_question_last_content (request1 request2 : ChatRequest)
    earlier1 earlier2 (m1 m2 : Message) :
  messages request1 = earlier1 ++ [m1] ->
  messages request2 = earlier2 ++ [m2] ->
  content m1 = content m2 ->
  analyze_question request1 = analyze_question request2.
Proof.
  intros Hm1 Hm2 Hc.
  rewrite (EndpointFacts.analyze_question_snoc _ _ _ Hm1).
  rewrite (EndpointFacts.analyze_question_snoc _ _ _ Hm2).
  now rewrite Hc.
Qed.

(** X15. The two handlers agree on a conversation that [chat] accepts:
    [analyze_question] reports a direct-answer request exactly when the
    window of [chat] carries the marker in front of the last content. *)
Theorem analyze_question_agrees_with_chat (request : ChatRequest) earlier
    (m : Message) :
  messages request = earlier ++ [m] ->
  role m = "user"%string ->
  exists flagged advice front,
    analyze_question request = Returned (mkAnalysis flagged advice) /\
    shaped_window request =
      ret (front
           ++ [IDict (mkDict "user"
                 (if flagged then (guide_marker ++ content m)%string
                  else content m))]).
Proof.
  intros Hm Hr.
  rewrite (EndpointFacts.analyze_question_snoc _ _ _ Hm).
  rewrite (shaped_window_snoc _ _ _ Hm), Hr.
  eexists _, _, _. split; [reflexivity|].
  unfold add_educational_context. reflexivity.
Qed.

End WithEnv.

(** X16. As the code stands [chat] never returns a body: every request is
    answered with status 400 or 500, and the answer is the same whatever
    the inference client, the configuration and the sampling fields of the
    request are. *)
Theorem chat_reply_by_messages (E1 E2 : Env) (request1 request2 : ChatRequest) :
  messages request1 = messages request2 ->
  @chat E1 request1 = @chat E2 request2 /\
  exists code detail,
    @chat E1 request1 = Failed code detail /\ (code = 400 \/ code = 500)%Z.
Proof.
  intros Heq.
  destruct (EndpointFacts.snoc_cases (messages request1))
    as [Hm|(earlier & m & Hm)].
  - assert (Hm2 : messages request2 = []) by now rewrite <- Heq.
    rewrite (@chat_nil E1 _ Hm), (@chat_nil E2 _ Hm2).
    split; [reflexivity|]. eexists _, _. split; [reflexivity|]. now left.
  - assert (Hm2 : messages request2 = earlier ++ [m]) by now rewrite <- Heq.
    rewrite (@chat_snoc E1 _ _ _ Hm), (@chat_snoc E2 _ _ _ Hm2).
    split; [reflexivity|].
    destruct (String.eqb (role m) "user"); eexists _, _;
      (split; [reflexivity|]); [now right|now left].
Qed.

Lemma analyze_question_last_content_witness :
  let request1 := mkChatRequest [mkMessage "user" "solve this"] None None in
  let request2 :=
    mkChatRequest
      [mkMessage "user" "hello"; mkMessage "assistant" "solve this"]
      (Some float_0_8) (Some 16%Z) in
  content (mkMessage "user" "solve this")
  = content (mkMessage "assistant" "solve this") /\
  @analyze_question (default_env canned_client) request1
  = @analyze_question (default_env canned_client) request2.
Proof.
  split; [reflexivity|].
  apply (@analyze_question_last_content (default_env canned_client)
           (mkChatRequest [mkMessage "user" "solve this"] None None)
           (mkChatRequest
              [mkMessage "user" "hello"; mkMessage "assistant" "solve this"]
              (Some float_0_8) (Some 16%Z))
           [] [mkMessage "user" "hello"]
           (mkMessage "user" "solve this")
           (mkMessage "assistant" "solve this")); reflexivity.
Defined.

Lemma analyze_question_agrees_with_chat_witness :
  let m := mkMessage "user" "Please do my homework" in
  let request := mkChatRequest [m] None None in
  messages request = [] ++ [m] /\ role m = "user"%string /\
  exists flagged advice front,
    @analyze_question (default_env canned_client) request
    = Returned (mkAnalysis flagged advice) /\
    shaped_window request =
      ret (front
           ++ [IDict (mkDict "user"
                 (if flagged then (guide_marker ++ content m)%string
                  else content m))]).
Proof.
  split; [reflexivity|]. split; [reflexivity|].
  apply (@analyze_question_agrees_with_chat (default_env canned_client)
           (mkChatRequest [mkMessage "user" "Please do my homework"] None None)
           [] (mkMessage "user" "Please do my homework")); reflexivity.
Defined.

Lemma chat_reply_by_messages_witness :
  let request1 :=
    mkChatRequest [mkMessage "user" "What is 2 + 2?"] None None in
  let request2 :=
    mkChatRequest [mkMessage "user" "What is 2 + 2?"]
      (Some float_0_8) (Some 16%Z) in
  messages request1 = messages request2 /\
  @chat (default_env canned_client) request1
  = @chat (default_env failing_client) request2.
Proof.
  split; [reflexivity|].
  apply (chat_reply_by_messages
           (default_env canned_client) (default_env failing_client)
           (mkChatRequest [mkMessage "user" "What is 2 + 2?"] None None)
           (mkChatRequest [mkMessage "user" "What is 2 + 2?"]
              (Some float_0_8) (Some 16%Z))).
  reflexivity.
Defined.

End ReplyFacts.

(** ** Sharing in the store *)

Module AliasFacts.
Import PyList PyListFacts Backend Store StoreFacts.
Local Open Scope list_scope.

(** X17. The copy that [chat] makes is shallow. On a stored conversation
    that ends with a user message, [modified_messages] is a new list; its
    elements before the last are the very references that end
    [request.messages] before its last one, and its last element is a new
    dict holding the annotation, while the [Message] it stands for stays in
    the store as it was. *)
Theorem chat_shape_shares_messages (h : heap) (msgs : loc) (items : list loc)
    (earlier : list Message) (m : Message) :
  h !! msgs = Some (OList items) ->
  view_items h items = Some (map IMessage (earlier ++ [m])) ->
  role m = "user"%string ->
  exists h' modified skipped front lm d,
    chat_shape msgs h = (h', inr modified) /\
    items = skipped ++ front ++ [lm] /\
    h' !! modified = Some (OList (front ++ [d])) /\
    modified <> msgs /\ h !! modified = None /\ h !! d = None /\
    h' !! d = Some (ODict (mkDict "user" (add_educational_context (content m))))
    /\ h' !! lm = Some (OMessage m) /\ h' !! msgs = Some (OList items).
Proof.
  intros Hm (its & lm & -> & Hits & Hlm)%view_items_snoc_inv Hr.
  destruct (chat_shape_run h msgs its lm m Hm Hlm Hr)
    as (h' & modified & d & Hrun & Hsub & Hnew & Hd0 & Hne & Hmod & Hd).
  exists h', modified, (firstn (length its - 2) its), (last_n 2 its), lm, d.
  split; [exact Hrun|]. split.
  { rewrite last_n_drop, app_assoc. now rewrite firstn_skipn. }
  split; [exact Hmod|]. split.
  { intros ->. now rewrite Hm in Hnew. }
  split; [exact Hnew|]. split; [exact Hd0|]. split; [exact Hd|]. split.
  - exact (lookup_weaken _ _ _ _ Hlm Hsub).
  - exact (lookup_weaken _ _ _ _ Hm Hsub).
Qed.

Lemma chat_shape_shares_messages_witness :
  let conversation :=
    [mkMessage "user" "a"; mkMessage "assistant" "b"; mkMessage "user" "c"] in
  let h := request_store (conversation ++ [mkMessage "user" "just tell me"]) in
  let items := [2; 3; 4; 5]%positive in
  h !! 1%positive = Some (OList items) /\
  view_items h items
  = Some (map IMessage (conversation ++ [mkMessage "user" "just tell me"])) /\
  exists h' modified skipped front lm d,
    chat_shape 1%positive h = (h', inr modified) /\
    items = skipped ++ front ++ [lm] /\
    h' !! modified = Some (OList (front ++ [d])) /\
    modified <> 1%positive /\ h !! modified = None /\ h !! d = None /\
    h' !! d = Some (ODict (mkDict "user"
                (add_educational_context
                   (content (mkMessage "user" "just tell me")))))
    /\ h' !! lm = Some (OMessage (mkMessage "user" "just tell me"))
    /\ h' !! 1%positive = Some (OList items).
Proof.
  split; [reflexivity|]. split; [reflexivity|].
  apply (chat_shape_shares_messages
           (request_store
              ([mkMessage "user" "a"; mkMessage "assistant" "b";
                mkMessage "user" "c"] ++ [mkMessage "user" "just tell me"]))
           1%positive [2; 3; 4; 5]%positive
           [mkMessage "user" "a"; mkMessage "assistant" "b"; mkMessage "user" "c"]
           (mkMessage "user" "just tell me")); reflexivity.
Defined.

Lemma chat_shape_refines_witness :
  let request :=
    mkChatRequest
      [mkMessage "user" "hello"; mkMessage "assistant" "hi";
       mkMessage "user" "what's the answer to 7 x 8"] None None in
  let h := request_store (messages request) in
  view_list h 1%positive = Some (map IMessage (messages request)) /\
  match chat_shape 1%positive h with
  | (h', inr l) =>
      exists window,
        shaped_window request = ret window /\ view_list h' l = Some window
  | (_, inl e) => shaped_window request = raise e
  end.
Proof.
  split; [reflexivity|].
  apply (chat_shape_refines
           (request_store
              [mkMessage "user" "hello"; mkMessage "assistant" "hi";
               mkMessage "user" "what's the answer to 7 x 8"])
           1%positive
           (mkChatRequest
              [mkMessage "user" "hello"; mkMessage "assistant" "hi";
               mkMessage "user" "what's the answer to 7 x 8"] None None)).
  reflexivity.
Defined.






End AliasFacts.

(** ** The shaped window against the conversation, and the calls made *)

Module ConversationFacts.
Import PyList PyListFacts Backend HelperFacts WindowFacts ShapingFacts.
Local Open Scope list_scope.

Lemma spec_window_snoc (earlier : list Message) (m : Message) :
  spec_window (earlier ++ [m]) = last_n 2 earlier ++ [m].
Proof.
  unfold spec_window. rewrite length_app. simpl.
  destruct (Nat.leb_spec (length earlier + 1) 3) as [Hlen|Hlen].
  - now rewrite last_n_all by lia.
  - rewrite !last_n_drop, length_app, skipn_app. simpl.
    replace (length earlier + 1 - 3) with (length earlier - 2) by lia.
    replace (length earlier - 2 - length earlier) with 0 by lia.
    reflexivity.
Qed.

Lemma spec_window_length (msgs : list Message) :
  length (spec_window msgs) = Nat.min 3 (length msgs).
Proof.
  unfold spec_window.
  destruct (Nat.leb_spec (length msgs) 3) as [Hlen|Hlen]; [lia|].
  rewrite last_n_length. lia.
Qed.

Lemma item_fields_messages (ms : list Message) :
  map item_fields (map IMessage ms) = map message_fields ms.
Proof. now rewrite map_map. Qed.

(** C1, as amended. For a conversation that ends with a user message, the
    window that [chat] shapes carries the roles and contents of the whole
    conversation when it has at most 3 messages, and of its last 3, in
    their order, when it has more, but for the content of its last entry,
    which is the annotation of the last message; when that message is not
    flagged the window carries the roles and contents of those messages
    throughout. *)
Theorem shaped_window_is_window (request : ChatRequest) earlier (m : Message) :
  messages request = earlier ++ [m] ->
  role m = "user"%string ->
  exists window front,
    shaped_window request = ret window /\
    length window = Nat.min 3 (length (messages request)) /\
    spec_window (messages request) = front ++ [m] /\
    map item_fields window
    = map message_fields front
      ++ [(role m, add_educational_context (content m))] /\
    (detect_cheating_attempt (content m) = false ->
     map item_fields window
     = map message_fields (spec_window (messages request))).
Proof.
  intros Hm Hr.
  exists (map IMessage (last_n 2 earlier)
          ++ [IDict (mkDict "user" (add_educational_context (content m)))]),
         (last_n 2 earlier).
  rewrite (shaped_window_snoc _ _ _ Hm), Hr, Hm, spec_window_snoc.
  split; [reflexivity|]. split.
  { rewrite <- spec_window_length, spec_window_snoc.
    now rewrite !length_app, length_map. }
  split; [reflexivity|].
  rewrite !map_app, item_fields_messages. simpl.
  split; [reflexivity|].
  intros Hd. unfold add_educational_context. rewrite Hd.
  unfold message_fields. now rewrite Hr.
Qed.

Lemma shaped_window_is_window_witness :
  let m := mkMessage "user" "solve this for me" in
  let earlier :=
    [mkMessage "user" "a"; mkMessage "assistant" "b"; mkMessage "user" "c";
     mkMessage "assistant" "d"] in
  let request := mkChatRequest (earlier ++ [m]) None None in
  messages request = earlier ++ [m] /\ role m = "user"%string /\
  exists window front,
    shaped_window request = ret window /\
    length window = Nat.min 3 (length (messages request)) /\
    spec_window (messages request) = front ++ [m] /\
    map item_fields window
    = map message_fields front
      ++ [(role m, add_educational_context (content m))] /\
    (detect_cheating_attempt (content m) = false ->
     map item_fields window
     = map message_fields (spec_window (messages request))).
Proof.
  split; [reflexivity|]. split; [reflexivity|].
  apply (shaped_window_is_window
           (mkChatRequest
              ([mkMessage "user" "a"; mkMessage "assistant" "b";
                mkMessage "user" "c"; mkMessage "assistant" "d"]
               ++ [mkMessage "user" "solve this for me"]) None None)
           [mkMessage "user" "a"; mkMessage "assistant" "b";
            mkMessage "user" "c"; mkMessage "assistant" "d"]
           (mkMessage "user" "solve this for me")); reflexivity.
Defined.

(** C1, as stated, fails: the window shaped for the single user message
    "solve this" does not carry the content of that message. *)
Lemma shaped_window_differs_when_flagged :
  let request := mkChatRequest [mkMessage "user" "solve this"] None None in
  length (messages request) <= 3 /\
  exists window,
    shaped_window request = ret window /\
    map item_fields window <> map message_fields (messages request) /\
    map item_fields window
    <> map message_fields (spec_window (messages request)).
Proof.
  split; [simpl; lia|].
  eexists. split; [reflexivity|]. split; discriminate.
Qed.

Section Calls.
Context `{Env}.

(** C10, as the code has it: whatever the request, [chat] makes no call
    of the inference client, so that neither a default nor a supplied
    value of [max_tokens] or [temperature] is passed to it. *)
Theorem chat_makes_no_call (request : ChatRequest) :
  snd (chat_body_traced request) = chat_body request /\
  fst (chat_body_traced request) = [].
Proof.
  split.
  - unfold chat_body_traced, chat_body, bind.
    destruct (shaped_window request) as [e|modified]; [reflexivity|].
    destruct (format_messages_for_huggingface modified); reflexivity.
  - unfold chat_body_traced.
    destruct (EndpointFacts.snoc_cases (messages request))
      as [Hm|(earlier & m & Hm)].
    + now rewrite (shaped_window_nil _ Hm).
    + rewrite (shaped_window_snoc _ _ _ Hm).
      destruct (String.eqb (role m) "user"); [|reflexivity].
      unfold ret. now rewrite format_shaped_window.
Qed.

End Calls.

Example chat_makes_no_call_demo :
  let request :=
    mkChatRequest [mkMessage "user" "What is 2 + 2?"]
      (Some (S754_zero false)) (Some 0%Z) in
  @chat_body_traced (default_env canned_client) request
  = ([], raise role_error) /\
  @chat (default_env canned_client) request
  = Failed 500 "Internal server error: 'dict' object has no attribute 'role'".
Proof. split; reflexivity. Qed.

End ConversationFacts.
